(** * The exchange-rate dashboard of [foreign_exchange_prediction.py]

    A shallow embedding of the script: the data frames it builds, the pandas
    operations it applies to them, and what it hands to the page.  Floats are
    the kernel's binary64 numbers, which are Python's; a pandas null in a
    float column is NaN.  A data frame is its [ds] column together with a
    finite map from the names of the float columns to their values, so that
    the script's column assignments are map updates. *)

From Stdlib Require Import ZArith Floats List Lia.
From stdpp Require Import gmap strings list fin_maps.

Set Warnings "-inexact-float".
Open Scope Z_scope.

(** ** Exceptions *)

(** What a run can raise: pandas' [KeyError], on a column that a frame does
    not have; [ValueError], which the engine raises on a frame it cannot be
    fitted to and Python raises on [int] of a NaN; and Streamlit's
    [StreamlitAPIException], on a widget whose arguments are not
    admissible. *)
Inductive Error :=
| KeyError (column : string)
| ValueError
| StreamlitAPIException.

Inductive Outcome (A : Type) : Type :=
| Done (a : A)
| Raised (e : Error).
Arguments Done {A} a.
Arguments Raised {A} e.

Definition bind {A B} (c : Outcome A) (k : A -> Outcome B) : Outcome B :=
  match c with
  | Done a => k a
  | Raised e => Raised e
  end.

Notation "'let*' x ':=' c 'in' k" := (bind c (fun x => k))
  (at level 10, x name, c at level 100, k at level 200).

(** ** Timestamps *)

(** A [datetime] with the fields Python gives it.  Timestamps are ordered as
    Python orders them, field after field. *)
Record datetime := mkDatetime {
  year : Z; month : Z; day : Z;
  hour : Z; minute : Z; second : Z; microsecond : Z
}.

Definition dt_fields (t : datetime) : list Z :=
  [year t; month t; day t; hour t; minute t; second t; microsecond t].

Fixpoint lex_compare (a b : list Z) : comparison :=
  match a, b with
  | [], [] => Eq
  | [], _ :: _ => Lt
  | _ :: _, [] => Gt
  | x :: a', y :: b' =>
      match x ?= y with
      | Eq => lex_compare a' b'
      | c => c
      end
  end.

Definition dt_compare (a b : datetime) : comparison :=
  lex_compare (dt_fields a) (dt_fields b).

Definition dt_ltb (a b : datetime) : bool :=
  match dt_compare a b with Lt => true | _ => false end.

Definition dt_max (a b : datetime) : datetime :=
  if dt_ltb a b then b else a.

(** [s.max()] on a column of timestamps: [None] is NaT, the maximum of an
    empty column. *)
Definition ds_max (l : list datetime) : option datetime :=
  match l with
  | [] => None
  | t :: l' => Some (fold_left dt_max l' t)
  end.

(** [t > m] where [m] is the result of [max()]: every comparison with NaT is
    false. *)
Definition after (m : option datetime) (t : datetime) : bool :=
  match m with
  | Some m' => dt_ltb m' t
  | None => false
  end.

(** [datetime(y, 1, 1)] and the like: midnight of a day. *)
Definition date (y m d : Z) : datetime := mkDatetime y m d 0 0 0 0.

(** ** Float columns *)

Definition notnull (v : float) : bool := negb (PrimFloat.is_nan v).

Definition nans (n : nat) : list float := replicate n nan.

(** [col * s], a column times a scalar. *)
Definition mul_scalar (col : list float) (s : float) : list float :=
  map (fun v => (v * s)%float) col.

(** [col.fillna(other)] for two columns of one frame: a null of [col] takes
    the value [other] has in the same row. *)
Fixpoint fillna (col other : list float) : list float :=
  match col, other with
  | x :: col', o :: other' =>
      (if PrimFloat.is_nan x then o else x) :: fillna col' other'
  | _, _ => col
  end.

Definition float_of_nat (n : nat) : float :=
  PrimFloat.of_uint63 (Uint63.of_Z (Z.of_nat n)).

(** The eight partial sums of numpy's unrolled loop, added at its end.  The
    loop always has eight of them; the other case is there to make the
    function total. *)
Definition tree8 (r : list float) : float :=
  match r with
  | [r0; r1; r2; r3; r4; r5; r6; r7] =>
      (((r0 + r1) + (r2 + r3)) + ((r4 + r5) + (r6 + r7)))%float
  | _ => fold_left PrimFloat.add r (-0)%float
  end.

(** [k] turns of the unrolled loop: each adds the next eight values to the
    eight partial sums. *)
Fixpoint add_blocks (k : nat) (r l : list float) : list float * list float :=
  match k with
  | O => (r, l)
  | S k' => add_blocks k' (zip_with PrimFloat.add r (take 8 l)) (drop 8 l)
  end.

(** Numpy's sum of a block of 8 to 128 values: eight partial sums over the
    whole groups of eight, added as a tree, then the values left over. *)
Definition block_sum (l : list float) : float :=
  let '(r, rest) := add_blocks (length l / 8 - 1) (take 8 l) (drop 8 l) in
  fold_left PrimFloat.add rest (tree8 r).

(** Numpy's pairwise summation of a float64 array: fewer than 8 values are
    added from left to right, up to 128 by [block_sum], and more are split
    in two halves, the first a multiple of 8 long, summed apart and added.
    The fuel bounds the depth of the splitting; [pairwise_sum] gives
    enough of it, so that the case without fuel is never reached
    ([pairwise_fuel_enough]). *)
Fixpoint pairwise_fuel (fuel : nat) (l : list float) : float :=
  let n := length l in
  if (n <? 8)%nat then fold_left PrimFloat.add l (-0)%float
  else if (n <=? 128)%nat then block_sum l
  else
    match fuel with
    | O => block_sum l
    | S fuel' =>
        let n2 := (n / 2 - (n / 2) mod 8)%nat in
        (pairwise_fuel fuel' (take n2 l) + pairwise_fuel fuel' (drop n2 l))%float
    end.

Definition pairwise_sum (l : list float) : float :=
  pairwise_fuel (length l) l.

(** [a.sum()] of a one-dimensional float64 array: the reduction starts from
    the identity of the addition and adds the pairwise sum of the array. *)
Definition np_sum (a : list float) : float := (0 + pairwise_sum a)%float.

(** A null counts for zero in the sum. *)
Definition zero_fill (v : float) : float :=
  if PrimFloat.is_nan v then 0%float else v.

(** [col.mean()], as pandas computes it without bottleneck: the nulls are
    replaced by zero, the column is summed by numpy, and the sum is divided
    by the number of values that are not null; the mean of no value at all
    is NaN, which pandas returns without dividing. *)
Definition mean (col : list float) : float :=
  match length (List.filter notnull col) with
  | O => nan
  | S _ as count => (np_sum (map zero_fill col) / float_of_nat count)%float
  end.

(** Boolean indexing, [col[mask]]. *)
Fixpoint mask_select {A} (mask : list bool) (l : list A) : list A :=
  match mask, l with
  | b :: mask', x :: l' =>
      if b then x :: mask_select mask' l' else mask_select mask' l'
  | _, _ => []
  end.

(** ** Data frames *)

Record DataFrame := mkDataFrame {
  ds : list datetime;
  columns : gmap string (list float)
}.

Definition nrows (df : DataFrame) : nat := length (ds df).

(** Every column of a frame has one value per row. *)
Definition well_formed (df : DataFrame) : Prop :=
  map_Forall (fun _ col => length col = nrows df) (columns df).

(** [df.empty]: the frames of the script always have their [ds] column, so a
    frame is empty when it has no row. *)
Definition empty_frame (df : DataFrame) : bool := Nat.eqb (nrows df) 0.

(** [df[c]] *)
Definition getitem (df : DataFrame) (c : string) : Outcome (list float) :=
  match columns df !! c with
  | Some col => Done col
  | None => Raised (KeyError c)
  end.

(** [df[c] = col]: the frame is updated in place; every later use of the
    frame sees the new column. *)
Definition setitem (df : DataFrame) (c : string) (col : list float) : DataFrame :=
  {| ds := ds df; columns := <[c := col]> (columns df) |}.

(** [df[['ds', c]]] *)
Definition ds_with (df : DataFrame) (c : string) : Outcome DataFrame :=
  let* col := getitem df c in
  Done {| ds := ds df; columns := {[c := col]} |}.

(** One column of [pd.concat([a, b], ignore_index=True)]: a frame that lacks
    the column contributes nulls for its rows. *)
Definition concat_col (na nb : nat) (oa ob : option (list float))
  : option (list float) :=
  match oa, ob with
  | None, None => None
  | _, _ => Some (default (nans na) oa ++ default (nans nb) ob)
  end.

Definition pd_concat (a b : DataFrame) : DataFrame :=
  {| ds := ds a ++ ds b;
     columns := merge (concat_col (nrows a) (nrows b)) (columns a) (columns b) |}.

(** [df[mask]], for a mask made from a column of [df] itself, so that it
    has one entry per row. *)
Definition loc (df : DataFrame) (mask : list bool) : DataFrame :=
  {| ds := mask_select mask (ds df);
     columns := mask_select mask <$> columns df |}.

(** [df[c].fillna(other, inplace=True)]: [df[c]] is a view of the frame's
    column, and filling it in place writes through to the frame.  This is
    pandas without copy-on-write, on which line 59 relies. *)
Definition fillna_inplace (df : DataFrame) (c : string) (other : list float)
  : Outcome DataFrame :=
  let* col := getitem df c in
  Done (setitem df c (fillna col other)).

(** ** The forecasting engine *)

(** Prophet, as far as the script uses it: a model is fitted to a frame,
    makes the frame of the dates to predict, and predicts on it.  What it
    computes is not the script's business.  The engine may refuse its input:
    [raises df days] is the exception, if any, that fitting to [df] and
    predicting [days] ahead raises (Prophet's [fit] raises [ValueError] on a
    frame with fewer than two rates); the three functions give the model and
    the frames of the runs in which it raises nothing. *)
Record Engine := mkEngine {
  Model : Type;
  fit : DataFrame -> Model;
  make_future_dataframe : Model -> Z -> DataFrame;
  predict : Model -> DataFrame -> DataFrame;
  raises : DataFrame -> Z -> option Error
}.

(** Lines 17-20.  In a run in which the engine raises, this is where the
    run stops: [dashboard] asks [raises] before it reads the model. *)
Definition train_model (E : Engine) (df : DataFrame) : Model E := fit E df.

Definition generate_forecast (E : Engine) (model : Model E) (days : Z) : DataFrame :=
  let future := make_future_dataframe E model days in
  predict E model future.

(** ** The sidebar *)

(** [st.sidebar.number_input(label, min_value=.., value=.., step=..)]: the
    page does not let a number below [min_value] through. *)
Record NumberInput := mkNumberInput {
  min_value : float;
  value : float;
  step : float
}.

Definition current_usd_input : NumberInput := mkNumberInput 0.1 1.0 0.1.
Definition current_gbp_input : NumberInput := mkNumberInput 0.1 1.0 0.1.

(** The numbers a number input can return. *)
Definition returns (w : NumberInput) (v : float) : Prop :=
  (min_value w <=? v)%float = true.

(** [st.sidebar.slider(label, lo, hi, default)] *)
Record Slider := mkSlider { lo : Z; hi : Z; initial : Z }.

Definition years_slider : Slider := mkSlider 1 10 5.

Definition slides (w : Slider) (v : Z) : Prop := lo w <= v <= hi w.

(** What the user and the clock give to one run of the script.  The clock is
    read three times: for the row of today (line 44), for the opening value
    of the year slider (line 64) and for the choice between the historical
    and the forecasted summary (line 70).  [selected_year] is what the year
    slider returns. *)
Record Inputs := mkInputs {
  current_usd : float;
  current_gbp : float;
  years : Z;
  selected_year : Z;
  show_components : bool;
  now : datetime;
  now_slider : datetime;
  now_summary : datetime
}.

(** ** The script *)

(** Line 44: the row of today, with the rate the user entered. *)
Definition today (now : datetime) (current_gbp : float) : DataFrame :=
  {| ds := [now]; columns := {["y" := [current_gbp]]} |}.

(** Line 45 *)
Definition df_updated (df : DataFrame) (now : datetime) (current_gbp : float)
  : DataFrame :=
  pd_concat df (today now current_gbp).

(** Lines 44-45 as a step of the script: no statement of it raises. *)
Definition series_normalizer (df : DataFrame) (now : datetime)
  (current_gbp : float) : Outcome DataFrame :=
  Done (df_updated df now current_gbp).

(** The number of days asked of the engine, line 51. *)
Definition periods (years : Z) : Z := years * 365.

(** Lines 48 and 51 *)
Definition forecast (E : Engine) (df_updated : DataFrame) (years : Z) : DataFrame :=
  let model := train_model E df_updated in
  generate_forecast E model (periods years).

(** Line 54: [forecast] with its new column. *)
Definition forecast_adjusted (forecast : DataFrame) (current_usd : float)
  : Outcome DataFrame :=
  let* yhat := getitem forecast "yhat" in
  Done (setitem forecast "yhat_adjusted" (mul_scalar yhat current_usd)).

(** Lines 57-59 *)
Definition combined_df (df_updated forecast : DataFrame) : Outcome DataFrame :=
  let* history := ds_with df_updated "y" in
  let* future := ds_with forecast "yhat_adjusted" in
  let combined := pd_concat history future in
  let* y := getitem combined "y" in
  let combined := setitem combined "y_combined" y in
  let* yhat_adjusted := getitem combined "yhat_adjusted" in
  fillna_inplace combined "y_combined" yhat_adjusted.

(** [s.min()] and [s.max()] on a column of integers; an empty column has
    none: pandas returns NaN for it. *)
Definition int_min (l : list Z) : option Z :=
  match l with
  | [] => None
  | y :: l' => Some (fold_left Z.min l' y)
  end.

Definition int_max (l : list Z) : option Z :=
  match l with
  | [] => None
  | y :: l' => Some (fold_left Z.max l' y)
  end.

(** Lines 62-63 *)
Definition min_year (combined_df : DataFrame) : option Z :=
  int_min (map year (ds combined_df)).

Definition max_year (combined_df : DataFrame) : option Z :=
  int_max (map year (ds combined_df)).

(** Line 64: the slider of the selected year, which opens on the year of the
    clock.  [int] of the NaN of an empty frame raises [ValueError]; Streamlit
    refuses a slider whose minimum is not below its maximum, or whose
    opening value is outside them. *)
Definition year_slider (combined_df : DataFrame) (now : datetime)
  : Outcome Slider :=
  match min_year combined_df, max_year combined_df with
  | Some lo, Some hi =>
      if (lo <? hi) && (lo <=? year now) && (year now <=? hi)
      then Done (mkSlider lo hi (year now))
      else Raised StreamlitAPIException
  | _, _ => Raised ValueError
  end.

(** Line 67 *)
Definition selected_year_data (combined_df : DataFrame) (selected_year : Z)
  : DataFrame :=
  loc combined_df (map (fun t => year t =? selected_year) (ds combined_df)).

(** What lines 69-83 write to the page; each rate is written with four
    decimals. *)
Inductive Report :=
| Historical (selected_year : Z) (actual_rate adjusted_rate : float)
| Forecasted (selected_year : Z) (forecasted_rate : float)
| NoData (selected_year : Z).

(** Lines 69-83 *)
Definition year_summary (combined_df : DataFrame) (selected_year : Z)
  (now : datetime) (current_usd : float) : Outcome Report :=
  let selected_year_data := selected_year_data combined_df selected_year in
  if negb (empty_frame selected_year_data) then
    if selected_year <=? year now then
      let* y := getitem selected_year_data "y" in
      let actual_rate := mean y in
      let adjusted_rate := (actual_rate * current_usd)%float in
      Done (Historical selected_year actual_rate adjusted_rate)
    else
      let* yhat_adjusted := getitem selected_year_data "yhat_adjusted" in
      let forecasted_rate := mean yhat_adjusted in
      Done (Forecasted selected_year forecasted_rate)
  else Done (NoData selected_year).

(** A line of a chart: its abscissas and its ordinates. *)
Record Trace := mkTrace { xs : list datetime; ys : list float }.

(** Lines 89-95 *)
Definition historical_trace (df_updated : DataFrame) : Outcome Trace :=
  let* y := getitem df_updated "y" in
  Done (mkTrace (ds df_updated) y).

(** Lines 98-99: the rows of the forecast after the last row of the
    history. *)
Definition future_mask (forecast df_updated : DataFrame) : list bool :=
  map (after (ds_max (ds df_updated))) (ds forecast).

Definition forecast_dates (forecast df_updated : DataFrame) : list datetime :=
  ds (loc forecast (future_mask forecast df_updated)).

Definition forecast_values (forecast df_updated : DataFrame)
  : Outcome (list float) :=
  getitem (loc forecast (future_mask forecast df_updated)) "yhat_adjusted".

(** Lines 100-106 *)
Definition forecast_trace (forecast df_updated : DataFrame) : Outcome Trace :=
  let* values := forecast_values forecast df_updated in
  Done (mkTrace (forecast_dates forecast df_updated) values).

(** Lines 109-116: the band of the selected year. *)
Definition selected_year_band (selected_year : Z) : datetime * datetime :=
  (date selected_year 1 1, date selected_year 12 31).

(** Lines 134-143 *)
Definition trend_fig (forecast : DataFrame) : Outcome Trace :=
  let* trend := getitem forecast "trend" in
  Done (mkTrace (ds forecast) trend).

(** Lines 146-158: the chart, or the notice that there is none. *)
Definition yearly_fig (forecast : DataFrame) : option Trace :=
  match columns forecast !! "yearly" with
  | Some yearly => Some (mkTrace (ds forecast) yearly)
  | None => None
  end.

Record Components := mkComponents {
  trend_chart : Trace;
  yearly_chart : option Trace
}.

(** Lines 131-158 *)
Definition components (show : bool) (forecast : DataFrame)
  : Outcome (option Components) :=
  if show then
    let* t := trend_fig forecast in
    Done (Some (mkComponents t (yearly_fig forecast)))
  else Done None.

Record Page := mkPage {
  year_control : Slider;
  report : Report;
  history_line : Trace;
  forecast_line : Trace;
  band : datetime * datetime;
  components_shown : option Components
}.

(** One run of the script on the loaded frame [df], from line 41 on. *)
Definition dashboard (E : Engine) (df : DataFrame) (i : Inputs) : Outcome Page :=
  let df_updated := df_updated df (now i) (current_gbp i) in
  match raises E df_updated (periods (years i)) with
  | Some e => Raised e
  | None =>
      let forecast := forecast E df_updated (years i) in
      let* forecast := forecast_adjusted forecast (current_usd i) in
      let* combined_df := combined_df df_updated forecast in
      let* year_control := year_slider combined_df (now_slider i) in
      let* report :=
        year_summary combined_df (selected_year i) (now_summary i)
          (current_usd i) in
      let* history_line := historical_trace df_updated in
      let* forecast_line := forecast_trace forecast df_updated in
      let* shown := components (show_components i) forecast in
      Done (mkPage year_control report history_line forecast_line
              (selected_year_band (selected_year i)) shown)
  end.

(** ** Vocabulary of the statements *)

(** An engine that replays a forecast made beforehand, whatever it is fitted
    to: the engine of the examples. *)
Definition replay (canned : DataFrame) : Engine :=
  {| Model := unit;
     fit := fun _ => tt;
     make_future_dataframe := fun _ _ => {| ds := ds canned; columns := ∅ |};
     predict := fun _ _ => canned;
     raises := fun _ _ => None |}.

(** The values a column has in the rows whose timestamp falls in a year. *)
Definition values_in_year (y : Z) (dates : list datetime) (col : list float)
  : list float :=
  map snd (List.filter (fun r => year (fst r) =? y) (combine dates col)).

(** The points of a line. *)
Definition points (t : Trace) : list (datetime * float) :=
  combine (xs t) (ys t).

(** "Only the predictions after the last historical timestamp reach the
    adjusted-prediction column of the blended frame". *)
Definition blends_future_only (df_updated combined : DataFrame) : Prop :=
  forall i t adj a,
    ds combined !! i = Some t ->
    columns combined !! "yhat_adjusted" = Some adj ->
    adj !! i = Some a ->
    notnull a = true ->
    after (ds_max (ds df_updated)) t = true.

(** What the fields of a timestamp satisfy at least. *)
Definition valid_datetime (t : datetime) : Prop :=
  1 <= month t <= 12 /\ 1 <= day t <= 31
  /\ 0 <= hour t < 24 /\ 0 <= minute t < 60 /\ 0 <= second t < 60
  /\ 0 <= microsecond t < 1000000.

(** The time of day is midnight. *)
Definition midnight (t : datetime) : Prop :=
  hour t = 0 /\ minute t = 0 /\ second t = 0 /\ microsecond t = 0.

(** [Sum l v]: [v] is the result of adding the values of [l], each of them
    once, in some order and some grouping, from zeros. *)
Inductive Sum : list float -> float -> Prop :=
| Sum_zero : Sum [] 0%float
| Sum_neg_zero : Sum [] (-0)%float
| Sum_one (x : float) : Sum [x] x
| Sum_add (l1 l2 : list float) (v1 v2 : float) :
    Sum l1 v1 -> Sum l2 v2 -> Sum (l1 ++ l2) (v1 + v2)%float
| Sum_perm (l l' : list float) (v : float) :
    Permutation l l' -> Sum l v -> Sum l' v.

(** [Holds a b l na nb]: the list [l] is made of [na] values [a], [nb]
    values [b] and zeros. *)
Inductive Holds (a b : float) : list float -> nat -> nat -> Prop :=
| Holds_nil : Holds a b [] 0 0
| Holds_zero (l : list float) (na nb : nat) :
    Holds a b l na nb -> Holds a b (0%float :: l) na nb
| Holds_a (l : list float) (na nb : nat) :
    Holds a b l na nb -> Holds a b (a :: l) (S na) nb
| Holds_b (l : list float) (na nb : nat) :
    Holds a b l na nb -> Holds a b (b :: l) na (S nb).

(** Adding a zero changes nothing, except to the negative zero. *)
Definition unchanged_by_zero (x : float) : Prop :=
  (0 + x = x /\ -0 + x = x /\ x + 0 = x /\ x + -0 = x)%float.

(** What the sum of [na] values [a], [nb] values [b] and zeros can be, for
    at most one of each. *)
Definition sum_of (a b : float) (na nb : nat) (v : float) : Prop :=
  match na, nb with
  | O, O => v = 0%float \/ v = (-0)%float
  | 1%nat, O => v = a
  | O, 1%nat => v = b
  | 1%nat, 1%nat => v = (a + b)%float
  | _, _ => False
  end.

(** The data of the examples. *)
Definition history_2020 : DataFrame :=
  {| ds := [date 2020 1 1; date 2021 1 1];
     columns := {["y" := [1.30; 1.35]%float]} |}.

Definition history_2024 : DataFrame :=
  {| ds := [date 2024 1 2]; columns := {["y" := [1.30]%float]} |}.

Definition ten_days : list datetime :=
  map (fun d => date 2023 3 d) [1; 2; 3; 6; 7; 8; 9; 10; 13; 14].

Definition ten_tenths : DataFrame :=
  {| ds := ten_days; columns := {["y" := replicate 10 0.1%float]} |}.

Definition ten_tenths_forecast : DataFrame :=
  {| ds := ten_days ++ [mkDatetime 2024 6 2 12 0 0 0];
     columns := {["yhat" := replicate 11 0.1%float]} |}.

Definition noon : datetime := mkDatetime 2024 6 1 12 0 0 0.

Definition canned_forecast : DataFrame :=
  {| ds := [date 2020 1 1; mkDatetime 2024 6 2 12 0 0 0; mkDatetime 2025 6 2 12 0 0 0];
     columns := <["yhat" := [1.0; 2.0; 3.0]%float]>
                (<["trend" := [1.25; 1.5; 1.75]%float]>
                 {["yearly" := [0.5; -0.25; 0.125]%float]}) |}.

Definition run_2024 (current_gbp : float) : Inputs :=
  {| current_usd := 2.0; current_gbp := current_gbp; years := 5;
     selected_year := 2024; show_components := true;
     now := noon; now_slider := noon; now_summary := noon |}.

(** The summary a run writes, when the run completes. *)
Definition report_of (run : Outcome Page) : option Report :=
  match run with
  | Done page => Some (report page)
  | Raised _ => None
  end.

(** Well-formedness of a frame given in full is decided by computation. *)
Ltac compute_well_formed :=
  unfold well_formed; apply (bool_decide_unpack _); vm_compute; exact I.

(** The summary of a run whose engine returned [forecast]: lines 54, 57-59
    and 67-83, one after the other. *)
Definition summary_of_run (df : DataFrame) (now : datetime)
  (current_gbp : float) (forecast : DataFrame) (current_usd : float)
  (selected_year : Z) (clock : datetime) : Outcome Report :=
  let* forecast := forecast_adjusted forecast current_usd in
  let* combined_df := combined_df (df_updated df now current_gbp) forecast in
  year_summary combined_df selected_year clock current_usd.

(** * Properties *)

(** ** Frames *)

Lemma lookup_pd_concat (a b : DataFrame) (c : string) :
  columns (pd_concat a b) !! c
  = concat_col (nrows a) (nrows b) (columns a !! c) (columns b !! c).
Proof.
  unfold pd_concat; simpl. rewrite lookup_merge.
  destruct (columns a !! c), (columns b !! c); reflexivity.
Qed.

Lemma getitem_Done (df : DataFrame) (c : string) (col : list float) :
  getitem df c = Done col <-> columns df !! c = Some col.
Proof.
  unfold getitem. destruct (columns df !! c); split; intros H;
    inversion H; reflexivity.
Qed.

Lemma getitem_lookup (df : DataFrame) (c : string) (col : list float) :
  columns df !! c = Some col -> getitem df c = Done col.
Proof. apply getitem_Done. Qed.

Lemma lookup_setitem_eq (df : DataFrame) (c : string) (col : list float) :
  columns (setitem df c col) !! c = Some col.
Proof. unfold setitem; simpl. apply lookup_insert_eq. Qed.

Lemma lookup_setitem_ne (df : DataFrame) (c c' : string) (col : list float) :
  c <> c' -> columns (setitem df c col) !! c' = columns df !! c'.
Proof. intros H. unfold setitem; simpl. apply lookup_insert_ne, H. Qed.

Lemma ds_setitem (df : DataFrame) (c : string) (col : list float) :
  ds (setitem df c col) = ds df.
Proof. reflexivity. Qed.

(** The frame of lines 57-59, column by column. *)
Lemma combined_df_columns (dfu fc : DataFrame) (y adj : list float) :
  columns dfu !! "y" = Some y ->
  columns fc !! "yhat_adjusted" = Some adj ->
  exists c,
    combined_df dfu fc = Done c
    /\ ds c = ds dfu ++ ds fc
    /\ columns c !! "y" = Some (y ++ nans (nrows fc))
    /\ columns c !! "yhat_adjusted" = Some (nans (nrows dfu) ++ adj)
    /\ columns c !! "y_combined"
       = Some (fillna (y ++ nans (nrows fc)) (nans (nrows dfu) ++ adj)).
Proof.
  intros Hy Hadj. unfold combined_df, ds_with.
  rewrite (getitem_lookup _ _ _ Hy), (getitem_lookup _ _ _ Hadj).
  cbn [bind].
  set (h := {| ds := ds dfu; columns := {["y" := y]} |}).
  set (f := {| ds := ds fc; columns := {["yhat_adjusted" := adj]} |}).
  assert (Hcy : columns (pd_concat h f) !! "y" = Some (y ++ nans (nrows fc))).
  { rewrite lookup_pd_concat. subst h f. cbn [columns].
    rewrite lookup_singleton_eq, lookup_singleton_ne by discriminate.
    reflexivity. }
  assert (Hca : columns (pd_concat h f) !! "yhat_adjusted"
                = Some (nans (nrows dfu) ++ adj)).
  { rewrite lookup_pd_concat. subst h f. cbn [columns].
    rewrite lookup_singleton_eq, lookup_singleton_ne by discriminate.
    reflexivity. }
  rewrite (getitem_lookup _ _ _ Hcy). cbn [bind].
  erewrite getitem_lookup
    by (rewrite lookup_setitem_ne by discriminate; exact Hca).
  cbn [bind]. unfold fillna_inplace.
  erewrite getitem_lookup by apply lookup_setitem_eq.
  cbn [bind]. eexists. split; [reflexivity|].
  split; [reflexivity|]. split; [|split].
  - rewrite !lookup_setitem_ne by discriminate. exact Hcy.
  - rewrite !lookup_setitem_ne by discriminate. exact Hca.
  - apply lookup_setitem_eq.
Qed.

(** ** Binary64 *)

Lemma Prim2SF_nan (x : float) :
  Prim2SF x = S754_nan <-> PrimFloat.is_nan x = true.
Proof.
  unfold Prim2SF. destruct (PrimFloat.is_nan x); [tauto|].
  split; [|discriminate].
  destruct (is_zero x); [discriminate|].
  destruct (is_infinity x); [discriminate|].
  destruct (Z.frexp x) as [r e].
  destruct (shr_fexp _ _ _ _ _) as [s e'].
  destruct (shr_m s); discriminate.
Qed.

Lemma shr_1_nonneg (mrs : shr_record) :
  0 <= shr_m mrs -> 0 <= shr_m (shr_1 mrs).
Proof.
  destruct mrs as [m r s]. simpl.
  destruct m as [|p|p]; [| |lia]; intros _.
  - simpl. lia.
  - destruct p; simpl; lia.
Qed.

Lemma iter_pos_shr_1_nonneg (p : positive) (mrs : shr_record) :
  0 <= shr_m mrs -> 0 <= shr_m (SpecFloat.iter_pos shr_1 p mrs).
Proof.
  revert mrs. induction p as [p IH|p IH|]; intros mrs H; simpl.
  - apply IH, IH, shr_1_nonneg, H.
  - apply IH, IH, H.
  - apply shr_1_nonneg, H.
Qed.

Lemma shr_fexp_nonneg (m e : Z) (l : location) :
  0 <= m -> 0 <= shr_m (fst (shr_fexp prec emax m e l)).
Proof.
  intros H. unfold shr_fexp, shr.
  assert (H0 : 0 <= shr_m (shr_record_of_loc m l)).
  { destruct l as [|[]]; simpl; exact H. }
  destruct (fexp prec emax (Zdigits2 m + e) - e); simpl;
    [exact H0 | apply iter_pos_shr_1_nonneg, H0 | exact H0].
Qed.

Lemma round_nearest_even_nonneg (m : Z) (l : location) :
  0 <= m -> 0 <= round_nearest_even m l.
Proof.
  intros H. destruct l as [|[]]; simpl; try lia.
  destruct (Z.even m); lia.
Qed.

(** Rounding a non-negative mantissa never makes a NaN. *)
Lemma binary_round_aux_not_nan (sx : bool) (m e : Z) (l : location) :
  0 <= m -> binary_round_aux prec emax sx m e l <> S754_nan.
Proof.
  intros H. unfold binary_round_aux.
  pose proof (shr_fexp_nonneg m e l H) as H1.
  destruct (shr_fexp prec emax m e l) as [mrs' e']. simpl in H1.
  pose proof (shr_fexp_nonneg _ e' loc_Exact
                (round_nearest_even_nonneg _ (loc_of_shr_record mrs') H1)) as H2.
  destruct (shr_fexp prec emax _ e' loc_Exact) as [mrs'' e'']. simpl in H2.
  destruct (shr_m mrs''); [discriminate| |lia].
  destruct (e'' <=? emax - prec); discriminate.
Qed.

(** A number times a positive finite scale is a number. *)
Lemma mul_notnull (v s : float) :
  notnull v = true ->
  (0 <? s)%float = true -> (s <? infinity)%float = true ->
  notnull (v * s) = true.
Proof.
  unfold notnull. rewrite !negb_true_iff, <- !not_true_iff_false.
  rewrite <- !Prim2SF_nan, mul_spec, !ltb_spec.
  change (Prim2SF 0) with (S754_zero false).
  change (Prim2SF infinity) with (S754_infinity false).
  unfold SF64mul.
  destruct (Prim2SF v) as [sv|sv| |sv mv ev], (Prim2SF s) as [ss|ss| |ss ms es];
    simpl; try congruence; try discriminate.
  - destruct ss; discriminate.
  - intros _ _ _. apply binary_round_aux_not_nan. lia.
Qed.

(** What a number input with minimum 0.1 returns is positive. *)
Lemma returns_positive (w : NumberInput) (v : float) :
  min_value w = 0.1%float -> returns w v -> (0 <? v)%float = true.
Proof.
  unfold returns. intros ->. rewrite leb_spec, ltb_spec.
  change (Prim2SF 0) with (S754_zero false).
  set (tenth := Prim2SF 0.1). vm_compute in tenth. subst tenth.
  destruct (Prim2SF v) as [sv|sv| |sv mv ev]; simpl; try discriminate.
  - destruct sv; [discriminate|reflexivity].
  - destruct sv; [discriminate|reflexivity].
Qed.

Lemma positive_not_le_zero (v : float) :
  (0 <? v)%float = true -> (v <=? 0)%float = false.
Proof.
  rewrite leb_spec, ltb_spec.
  change (Prim2SF 0) with (S754_zero false).
  destruct (Prim2SF v) as [sv|sv| |sv mv ev]; simpl; try discriminate.
  - destruct sv; [discriminate|reflexivity].
  - destruct sv; [discriminate|reflexivity].
Qed.

(** ** Columns *)

Lemma mask_select_map_filter {A} (p : A -> bool) (l : list A) :
  mask_select (map p l) l = List.filter p l.
Proof.
  induction l as [|x l IH]; simpl; [reflexivity|].
  rewrite IH. reflexivity.
Qed.

Lemma mask_select_app {A} (m1 m2 : list bool) (l1 l2 : list A) :
  length m1 = length l1 ->
  mask_select (m1 ++ m2) (l1 ++ l2) = mask_select m1 l1 ++ mask_select m2 l2.
Proof.
  revert l1. induction m1 as [|b m1 IH]; intros [|x l1] H; simpl in *;
    try discriminate; [reflexivity|].
  injection H as H. rewrite (IH _ H). destruct b; reflexivity.
Qed.

Lemma mask_select_combine {A B} (m : list bool) (l1 : list A) (l2 : list B) :
  combine (mask_select m l1) (mask_select m l2) = mask_select m (combine l1 l2).
Proof.
  revert l1 l2. induction m as [|b m IH]; intros [|x l1] [|z l2]; simpl;
    try reflexivity.
  - destruct b; [|destruct (mask_select m l1)]; reflexivity.
  - destruct b; simpl; rewrite IH; reflexivity.
Qed.

Lemma mask_select_fst {A B} (p : A -> bool) (l : list (A * B)) :
  mask_select (map p (map fst l)) l = List.filter (fun r => p (fst r)) l.
Proof.
  induction l as [|x l IH]; simpl; [reflexivity|].
  rewrite IH. reflexivity.
Qed.

Lemma map_fst_combine {A B} (l1 : list A) (l2 : list B) :
  length l1 = length l2 -> map fst (combine l1 l2) = l1.
Proof.
  revert l2. induction l1 as [|x l1 IH]; intros [|z l2] H; simpl in *;
    try discriminate; [reflexivity|].
  injection H as H. rewrite (IH _ H). reflexivity.
Qed.

Lemma map_snd_mask_select {A B} (m : list bool) (l : list (A * B)) :
  map snd (mask_select m l) = mask_select m (map snd l).
Proof.
  revert l. induction m as [|b m IH]; intros [|x l]; simpl; try reflexivity.
  destruct b; simpl; rewrite IH; reflexivity.
Qed.

Lemma map_snd_combine {A B} (l1 : list A) (l2 : list B) :
  length l1 = length l2 -> map snd (combine l1 l2) = l2.
Proof.
  revert l2. induction l1 as [|x l1 IH]; intros [|z l2] H; simpl in *;
    try discriminate; [reflexivity|].
  injection H as H. rewrite (IH _ H). reflexivity.
Qed.

(** Boolean indexing by the year keeps the values of the rows of the year. *)
Lemma mask_select_year (y : Z) (dates : list datetime) (col : list float) :
  length col = length dates ->
  mask_select (map (fun t => year t =? y) dates) col = values_in_year y dates col.
Proof.
  intros H. unfold values_in_year.
  rewrite <- (mask_select_fst (fun t => year t =? y)).
  rewrite map_fst_combine by (symmetry; exact H).
  rewrite map_snd_mask_select, map_snd_combine by (symmetry; exact H).
  reflexivity.
Qed.

Lemma filter_notnull_mask_nans (m : list bool) (n : nat) :
  List.filter notnull (mask_select m (nans n)) = [].
Proof.
  revert n. induction m as [|b m IH]; intros [|n]; simpl; try reflexivity.
  destruct b; simpl; apply IH.
Qed.

Lemma length_nans (n : nat) : length (nans n) = n.
Proof. unfold nans. apply length_replicate. Qed.

Lemma lookup_loc (df : DataFrame) (mask : list bool) (c : string) :
  columns (loc df mask) !! c = mask_select mask <$> columns df !! c.
Proof. unfold loc; simpl. apply lookup_fmap. Qed.

(** ** The Series Normalizer *)

Lemma lookup_df_updated (df : DataFrame) (now : datetime) (g : float) (c : string) :
  columns (df_updated df now g) !! c
  = concat_col (nrows df) 1 (columns df !! c)
      (if decide ("y" = c) then Some [g] else None).
Proof.
  unfold df_updated. rewrite lookup_pd_concat. unfold today; cbn [columns].
  rewrite lookup_singleton. reflexivity.
Qed.

Lemma lookup_df_updated_y (df : DataFrame) (now : datetime) (g : float) :
  columns (df_updated df now g) !! "y"
  = Some (default (nans (nrows df)) (columns df !! "y") ++ [g]).
Proof.
  rewrite lookup_df_updated. rewrite decide_True by reflexivity.
  destruct (columns df !! "y"); reflexivity.
Qed.

(** C5.  Whatever the historical frame and whatever the anchor value (so in
    particular for a non-empty history and a positive anchor), the merged
    frame has one row more than the history; its timestamps are those of the
    history, in their order, followed by the instant of the run; every
    column of the history keeps its values, in their order, followed by one
    value for the new row; and the last value of the rate column is the
    anchor value.  Nothing is sorted. *)
Theorem series_normalizer_appends_anchor
  (df : DataFrame) (now : datetime) (current_gbp : float) :
  exists merged,
    series_normalizer df now current_gbp = Done merged
    /\ nrows merged = (nrows df + 1)%nat
    /\ ds merged = ds df ++ [now]
    /\ (forall c col, columns df !! c = Some col ->
          exists x, columns merged !! c = Some (col ++ [x]))
    /\ (forall col, columns df !! "y" = Some col ->
          columns merged !! "y" = Some (col ++ [current_gbp]))
    /\ (exists y, columns merged !! "y" = Some y /\ last y = Some current_gbp).
Proof.
  exists (df_updated df now current_gbp).
  split; [reflexivity|]. split; [|split; [reflexivity|split; [|split]]].
  - unfold nrows, df_updated, pd_concat, today; cbn [ds].
    rewrite length_app. reflexivity.
  - intros c col Hc. rewrite lookup_df_updated, Hc.
    destruct (decide ("y" = c)); simpl; eauto.
  - intros col Hc. rewrite lookup_df_updated_y, Hc. reflexivity.
  - eexists. split; [apply lookup_df_updated_y|]. apply last_snoc.
Qed.

(** ** The Forecast Blender: scaling *)

Lemma forecast_adjusted_Done (fc : DataFrame) (s : float) (yhat : list float) :
  columns fc !! "yhat" = Some yhat ->
  forecast_adjusted fc s
  = Done (setitem fc "yhat_adjusted" (mul_scalar yhat s)).
Proof.
  intros H. unfold forecast_adjusted. rewrite (getitem_lookup _ _ _ H).
  reflexivity.
Qed.

Lemma forecast_adjusted_inv (fc fca : DataFrame) (s : float) :
  forecast_adjusted fc s = Done fca ->
  exists yhat, columns fc !! "yhat" = Some yhat
               /\ fca = setitem fc "yhat_adjusted" (mul_scalar yhat s).
Proof.
  unfold forecast_adjusted, getitem.
  destruct (columns fc !! "yhat") as [yhat|]; simpl; intros H;
    inversion H. eauto.
Qed.

(** C6.  When the engine's frame has its [yhat] column, the blender gives
    the frame an adjusted-prediction column whose value in every row is the
    raw prediction of that row times the scale factor, by one binary64
    multiplication and nothing else; the raw predictions 1.0, 2.0, 3.0 with
    scale 1.5 become 1.5, 3.0, 4.5.  No condition on the scale is needed. *)
Theorem adjusted_prediction_is_scaled
  (fc : DataFrame) (s : float) (yhat : list float) :
  columns fc !! "yhat" = Some yhat ->
  exists fca,
    forecast_adjusted fc s = Done fca
    /\ columns fca !! "yhat_adjusted" = Some (mul_scalar yhat s)
    /\ length (mul_scalar yhat s) = length yhat
    /\ (forall i v, yhat !! i = Some v ->
          mul_scalar yhat s !! i = Some (v * s)%float)
    /\ mul_scalar [1.0; 2.0; 3.0]%float 1.5 = [1.5; 3.0; 4.5]%float.
Proof.
  intros H. eexists. split; [apply (forecast_adjusted_Done _ _ _ H)|].
  split; [apply lookup_setitem_eq|]. split; [apply length_map|].
  split; [|reflexivity].
  intros i v Hi. unfold mul_scalar. rewrite list_lookup_fmap, Hi. reflexivity.
Qed.

Lemma adjusted_prediction_is_scaled_witness :
  exists fca,
    forecast_adjusted canned_forecast 1.5 = Done fca
    /\ columns fca !! "yhat_adjusted" = Some (mul_scalar [1.0; 2.0; 3.0]%float 1.5)
    /\ length (mul_scalar [1.0; 2.0; 3.0]%float 1.5) = length [1.0; 2.0; 3.0]%float
    /\ (forall i v, [1.0; 2.0; 3.0]%float !! i = Some v ->
          mul_scalar [1.0; 2.0; 3.0]%float 1.5 !! i = Some (v * 1.5)%float)
    /\ mul_scalar [1.0; 2.0; 3.0]%float 1.5 = [1.5; 3.0; 4.5]%float.
Proof.
  apply (adjusted_prediction_is_scaled canned_forecast 1.5 [1.0; 2.0; 3.0]%float).
  vm_compute. reflexivity.
Defined.

(** ** The horizon *)

(** C8.  For a horizon of [h] years, [h] between 1 and 10 as the slider
    gives it, the script asks the engine for [h * 365] future days, between
    365 and 3650, whatever the calendar: the forecast is the engine's
    prediction on the future frame it makes for [h * 365] periods. *)
Theorem horizon_in_days (E : Engine) (df_updated : DataFrame) (h : Z) :
  slides years_slider h ->
  periods h = h * 365
  /\ 365 <= periods h <= 3650
  /\ forecast E df_updated h
     = predict E (fit E df_updated)
         (make_future_dataframe E (fit E df_updated) (h * 365)).
Proof.
  unfold slides, years_slider, periods; cbn [lo hi]. intros H.
  split; [reflexivity|]. split; [lia|]. reflexivity.
Qed.

Lemma horizon_in_days_witness :
  periods 4 = 4 * 365
  /\ 365 <= periods 4 <= 3650
  /\ forecast (replay canned_forecast) history_2020 4
     = predict (replay canned_forecast) (fit (replay canned_forecast) history_2020)
         (make_future_dataframe (replay canned_forecast)
            (fit (replay canned_forecast) history_2020) (4 * 365)).
Proof.
  apply (horizon_in_days (replay canned_forecast) history_2020 4).
  unfold slides, years_slider; cbn [lo hi]. lia.
Defined.

(** ** The Forecast Blender: what it leaves alone *)

(** C9.  The blender's assignment touches the adjusted-prediction column
    only: the timestamps and every other column of the engine's frame are
    what they were, so the trend chart and the yearly-seasonality chart (or
    the notice that replaces it) show the engine's own values. *)
Theorem blender_changes_one_column (fc fca : DataFrame) (s : float) :
  forecast_adjusted fc s = Done fca ->
  ds fca = ds fc
  /\ (forall c, c <> "yhat_adjusted" -> columns fca !! c = columns fc !! c)
  /\ trend_fig fca = trend_fig fc
  /\ yearly_fig fca = yearly_fig fc
  /\ (forall show, components show fca = components show fc).
Proof.
  intros H. destruct (forecast_adjusted_inv _ _ _ H) as (yhat & Hy & ->).
  assert (Hc : forall c, c <> "yhat_adjusted" ->
                 columns (setitem fc "yhat_adjusted" (mul_scalar yhat s)) !! c
                 = columns fc !! c).
  { intros c Hne. apply lookup_setitem_ne. congruence. }
  assert (Ht : trend_fig (setitem fc "yhat_adjusted" (mul_scalar yhat s))
               = trend_fig fc).
  { unfold trend_fig, getitem. rewrite Hc by discriminate. reflexivity. }
  assert (Hs : yearly_fig (setitem fc "yhat_adjusted" (mul_scalar yhat s))
               = yearly_fig fc).
  { unfold yearly_fig. rewrite Hc by discriminate. reflexivity. }
  split; [reflexivity|]. split; [exact Hc|]. split; [exact Ht|].
  split; [exact Hs|].
  intros show. unfold components. rewrite Ht, Hs. reflexivity.
Qed.

Lemma blender_changes_one_column_witness :
  let fca := setitem canned_forecast "yhat_adjusted" [1.5; 3.0; 4.5]%float in
  ds fca = ds canned_forecast
  /\ (forall c, c <> "yhat_adjusted" ->
        columns fca !! c = columns canned_forecast !! c)
  /\ trend_fig fca = trend_fig canned_forecast
  /\ yearly_fig fca = yearly_fig canned_forecast
  /\ (forall show, components show fca = components show canned_forecast).
Proof.
  apply (blender_changes_one_column canned_forecast _ 1.5).
  vm_compute. reflexivity.
Defined.

(** ** The order of timestamps *)

Lemma lex_compare_refl (a : list Z) : lex_compare a a = Eq.
Proof.
  induction a as [|x a IH]; simpl; [reflexivity|].
  rewrite Z.compare_refl. exact IH.
Qed.

Lemma lex_compare_eq (a b : list Z) : lex_compare a b = Eq -> a = b.
Proof.
  revert b. induction a as [|x a IH]; intros [|z b]; simpl;
    try discriminate; [reflexivity|].
  destruct (Z.compare_spec x z) as [->| |]; try discriminate.
  intros H. rewrite (IH _ H). reflexivity.
Qed.

Lemma lex_compare_antisym (a b : list Z) :
  lex_compare b a = CompOpp (lex_compare a b).
Proof.
  revert b. induction a as [|x a IH]; intros [|z b]; simpl; try reflexivity.
  rewrite (Z.compare_antisym x z).
  destruct (x ?= z); simpl; [apply IH|reflexivity|reflexivity].
Qed.

Lemma lex_compare_lt_trans (a b c : list Z) :
  lex_compare a b = Lt -> lex_compare b c = Lt -> lex_compare a c = Lt.
Proof.
  revert b c. induction a as [|x a IH]; intros [|z b] [|w c]; simpl;
    try discriminate; try reflexivity.
  destruct (Z.compare_spec x z) as [->|Hxz|Hxz]; try discriminate.
  - destruct (z ?= w); try discriminate; [apply IH|reflexivity].
  - intros _. destruct (Z.compare_spec z w) as [->|Hzw|Hzw]; try discriminate.
    + intros _. rewrite (proj2 (Z.compare_lt_iff _ _) Hxz). reflexivity.
    + intros _. rewrite (proj2 (Z.compare_lt_iff x w)) by lia. reflexivity.
Qed.

Lemma dt_ltb_irrefl (a : datetime) : dt_ltb a a = false.
Proof. unfold dt_ltb, dt_compare. rewrite lex_compare_refl. reflexivity. Qed.

(** "Not before" is transitive. *)
Lemma dt_not_ltb_trans (a b c : datetime) :
  dt_ltb a b = false -> dt_ltb b c = false -> dt_ltb a c = false.
Proof.
  unfold dt_ltb, dt_compare.
  rewrite (lex_compare_antisym (dt_fields b) (dt_fields a)).
  rewrite (lex_compare_antisym (dt_fields c) (dt_fields b)).
  rewrite (lex_compare_antisym (dt_fields c) (dt_fields a)).
  destruct (lex_compare (dt_fields b) (dt_fields a)) eqn:Hba;
    cbn [CompOpp]; try discriminate; intros _.
  - apply lex_compare_eq in Hba. rewrite Hba. tauto.
  - destruct (lex_compare (dt_fields c) (dt_fields b)) eqn:Hcb;
      cbn [CompOpp]; try discriminate; intros _.
    + apply lex_compare_eq in Hcb. rewrite Hcb, Hba. reflexivity.
    + rewrite (lex_compare_lt_trans _ _ _ Hcb Hba). reflexivity.
Qed.

Lemma dt_max_not_before_l (a b : datetime) : dt_ltb (dt_max a b) a = false.
Proof.
  unfold dt_max. destruct (dt_ltb a b) eqn:H; [|apply dt_ltb_irrefl].
  unfold dt_ltb, dt_compare in *.
  rewrite (lex_compare_antisym (dt_fields a) (dt_fields b)).
  destruct (lex_compare (dt_fields a) (dt_fields b)); try discriminate.
  reflexivity.
Qed.

Lemma dt_max_not_after_r (a b : datetime) : dt_ltb (dt_max a b) b = false.
Proof.
  unfold dt_max. destruct (dt_ltb a b) eqn:H; [apply dt_ltb_irrefl|exact H].
Qed.

Lemma fold_dt_max_bound (l : list datetime) (t0 : datetime) :
  dt_ltb (fold_left dt_max l t0) t0 = false
  /\ (forall t, In t l -> dt_ltb (fold_left dt_max l t0) t = false)
  /\ In (fold_left dt_max l t0) (t0 :: l).
Proof.
  revert t0. induction l as [|x l IH]; intros t0; simpl.
  - split; [apply dt_ltb_irrefl|]. split; [tauto|]. left; reflexivity.
  - destruct (IH (dt_max t0 x)) as (H0 & Hl & Hin).
    split; [|split].
    + apply (dt_not_ltb_trans _ (dt_max t0 x)); [exact H0|].
      apply dt_max_not_before_l.
    + intros t [<-|Ht]; [|apply Hl, Ht].
      apply (dt_not_ltb_trans _ (dt_max t0 x)); [exact H0|].
      apply dt_max_not_after_r.
    + destruct Hin as [Hin|Hin]; [|right; right; exact Hin].
      rewrite <- Hin. unfold dt_max. destruct (dt_ltb t0 x); tauto.
Qed.

(** [max()] is a timestamp of the column that none of them is after. *)
Lemma ds_max_is_maximum (l : list datetime) (m : datetime) :
  ds_max l = Some m ->
  In m l /\ forall t, In t l -> after (Some m) t = false.
Proof.
  destruct l as [|t0 l]; simpl; [discriminate|].
  intros H. injection H as <-.
  destruct (fold_dt_max_bound l t0) as (H0 & Hl & Hin).
  split; [exact Hin|]. intros t [<-|Ht]; [exact H0|apply Hl, Ht].
Qed.

(** ** The Forecast Blender: which predictions are blended *)

Lemma mask_select_combine_filter {A B} (p : A -> bool) (l1 : list A) (l2 : list B) :
  mask_select (map p l1) (combine l1 l2)
  = List.filter (fun r => p (fst r)) (combine l1 l2).
Proof.
  revert l2. induction l1 as [|x l1 IH]; intros [|z l2]; simpl;
    try reflexivity.
  rewrite IH. reflexivity.
Qed.

Lemma forecast_trace_points (fca dfu : DataFrame) (adj : list float) :
  columns fca !! "yhat_adjusted" = Some adj ->
  exists line,
    forecast_trace fca dfu = Done line
    /\ points line
       = List.filter (fun r => after (ds_max (ds dfu)) (fst r))
           (combine (ds fca) adj).
Proof.
  intros H. unfold forecast_trace, forecast_values, forecast_dates.
  erewrite getitem_lookup by (rewrite lookup_loc, H; reflexivity).
  cbn [bind]. eexists. split; [reflexivity|].
  unfold points, loc, future_mask; cbn [xs ys ds].
  rewrite mask_select_combine. apply mask_select_combine_filter.
Qed.

(** C1, refuted as stated: with the history of 2020-2021, the anchor of
    1 June 2024 and a forecast whose first row is dated 1 January 2020, the
    blended frame has that row, with its adjusted prediction 1.5. *)
Lemma blend_keeps_past_predictions :
  exists fca combined,
    forecast_adjusted canned_forecast 1.5 = Done fca
    /\ combined_df (df_updated history_2020 noon 1.4) fca = Done combined
    /\ ~ blends_future_only (df_updated history_2020 noon 1.4) combined.
Proof.
  eexists. eexists. split; [vm_compute; reflexivity|].
  split; [vm_compute; reflexivity|].
  intros H.
  specialize (H 3%nat (date 2020 1 1)
                [nan; nan; nan; 1.5; 3.0; 4.5]%float 1.5%float).
  discriminate H; vm_compute; reflexivity.
Qed.

(** C1, amended.  The blended frame keeps every row of the engine's
    forecast, whatever its timestamp: after the rows of the merged history
    come the rows of the forecast, each with its timestamp and its adjusted
    prediction.  Only the forecast line of the chart is restricted: its
    points are the predictions whose timestamp is strictly after the maximum
    timestamp of the merged history (a timestamp of the history that none of
    them is after), in their order, and no other. *)
Theorem blend_keeps_every_prediction
  (df : DataFrame) (now : datetime) (current_gbp : float)
  (fc : DataFrame) (s : float) (yhat : list float) :
  columns fc !! "yhat" = Some yhat ->
  let dfu := df_updated df now current_gbp in
  exists fca combined adj line last_seen,
    forecast_adjusted fc s = Done fca
    /\ combined_df dfu fca = Done combined
    /\ columns combined !! "yhat_adjusted" = Some adj
    /\ (forall i t v, ds fc !! i = Some t -> yhat !! i = Some v ->
          ds combined !! (nrows dfu + i)%nat = Some t
          /\ adj !! (nrows dfu + i)%nat = Some (v * s)%float)
    /\ ds_max (ds dfu) = Some last_seen
    /\ In last_seen (ds dfu)
    /\ (forall t, In t (ds dfu) -> dt_ltb last_seen t = false)
    /\ forecast_trace fca dfu = Done line
    /\ points line
       = List.filter (fun r => dt_ltb last_seen (fst r))
           (combine (ds fc) (mul_scalar yhat s))
    /\ (forall t v, In (t, v) (points line) -> dt_ltb last_seen t = true).
Proof.
  intros Hyhat dfu.
  pose proof (forecast_adjusted_Done fc s yhat Hyhat) as Hfca.
  set (fca := setitem fc "yhat_adjusted" (mul_scalar yhat s)) in *.
  assert (Hadj : columns fca !! "yhat_adjusted" = Some (mul_scalar yhat s))
    by apply lookup_setitem_eq.
  destruct (combined_df_columns dfu fca _ _
              (lookup_df_updated_y df now current_gbp) Hadj)
    as (c & Hc & Hds & _ & Hca & _).
  destruct (forecast_trace_points fca dfu _ Hadj) as (line & Hline & Hpts).
  assert (Hmax : exists m, ds_max (ds dfu) = Some m).
  { unfold dfu, df_updated, pd_concat, today; cbn [ds].
    destruct (ds df); simpl; eauto. }
  destruct Hmax as (m & Hmax). rewrite Hmax in Hpts. cbn [after] in Hpts.
  exists fca, c, (nans (nrows dfu) ++ mul_scalar yhat s), line, m.
  split; [exact Hfca|]. split; [exact Hc|]. split; [exact Hca|].
  destruct (ds_max_is_maximum _ _ Hmax) as [Hmem Hub].
  split; [|split; [exact Hmax|split; [exact Hmem|split; [exact Hub|
           split; [exact Hline|split; [exact Hpts|]]]]]].
  - intros i t v Ht Hv. split.
    + rewrite Hds. unfold nrows. rewrite lookup_app_r by lia.
      replace (length (ds dfu) + i - length (ds dfu))%nat with i by lia.
      exact Ht.
    + rewrite lookup_app_r by (unfold nans; rewrite length_replicate; lia).
      unfold nans. rewrite length_replicate.
      replace (nrows dfu + i - nrows dfu)%nat with i by lia.
      unfold mul_scalar. rewrite list_lookup_fmap, Hv. reflexivity.
  - intros t v Hin. rewrite Hpts in Hin.
    apply filter_In in Hin. exact (proj2 Hin).
Qed.

Lemma blend_keeps_every_prediction_witness :
  let dfu := df_updated history_2020 noon 1.4 in
  exists fca combined adj line last_seen,
    forecast_adjusted canned_forecast 1.5 = Done fca
    /\ combined_df dfu fca = Done combined
    /\ columns combined !! "yhat_adjusted" = Some adj
    /\ (forall i t v, ds canned_forecast !! i = Some t ->
          [1.0; 2.0; 3.0]%float !! i = Some v ->
          ds combined !! (nrows dfu + i)%nat = Some t
          /\ adj !! (nrows dfu + i)%nat = Some (v * 1.5)%float)
    /\ ds_max (ds dfu) = Some last_seen
    /\ In last_seen (ds dfu)
    /\ (forall t, In t (ds dfu) -> dt_ltb last_seen t = false)
    /\ forecast_trace fca dfu = Done line
    /\ points line
       = List.filter (fun r => dt_ltb last_seen (fst r))
           (combine (ds canned_forecast) (mul_scalar [1.0; 2.0; 3.0]%float 1.5))
    /\ (forall t v, In (t, v) (points line) -> dt_ltb last_seen t = true).
Proof.
  apply (blend_keeps_every_prediction history_2020 noon 1.4
           canned_forecast 1.5 [1.0; 2.0; 3.0]%float).
  vm_compute. reflexivity.
Defined.

(** ** The Forecast Blender: the sources of a blended row *)

Lemma fillna_lookup (col other : list float) (i : nat) (x o : float) :
  col !! i = Some x -> other !! i = Some o ->
  fillna col other !! i = Some (if PrimFloat.is_nan x then o else x).
Proof.
  revert other i. induction col as [|x0 col IH]; intros [|o0 other] [|i];
    simpl; try discriminate.
  - intros [= ->] [= ->]. reflexivity.
  - apply IH.
Qed.

Lemma well_formed_length (df : DataFrame) (c : string) (col : list float) :
  well_formed df -> columns df !! c = Some col -> length col = nrows df.
Proof. intros Hwf Hc. exact (map_Forall_lookup_1 _ _ _ _ Hwf Hc). Qed.

(** C2.  Take a well-formed history whose rates are all present, an anchor
    that is a number, a well-formed forecast whose predictions are all
    present, and a scale the sidebar can return and that is finite.  Then in
    every row of the blended frame exactly one of the observed value and the
    adjusted prediction is non-null, and the combined value is the observed
    value when it is present and the adjusted prediction otherwise. *)
Theorem blended_row_has_one_source
  (df : DataFrame) (now : datetime) (current_gbp : float)
  (fc : DataFrame) (s : float) (y yhat : list float) :
  well_formed df -> well_formed fc ->
  columns df !! "y" = Some y ->
  Forall (fun v => notnull v = true) y ->
  notnull current_gbp = true ->
  columns fc !! "yhat" = Some yhat ->
  Forall (fun v => notnull v = true) yhat ->
  returns current_usd_input s -> (s <? infinity)%float = true ->
  exists fca combined observed adjusted comb,
    forecast_adjusted fc s = Done fca
    /\ combined_df (df_updated df now current_gbp) fca = Done combined
    /\ columns combined !! "y" = Some observed
    /\ columns combined !! "yhat_adjusted" = Some adjusted
    /\ columns combined !! "y_combined" = Some comb
    /\ forall i, (i < nrows combined)%nat ->
         exists o a v,
           observed !! i = Some o /\ adjusted !! i = Some a
           /\ comb !! i = Some v
           /\ notnull o = negb (notnull a)
           /\ v = (if notnull o then o else a).
Proof.
  intros Hwf Hwfc Hy Hnn Hg Hyhat Hpp Hs Hfin.
  pose proof (returns_positive current_usd_input s eq_refl Hs) as Hpos.
  pose proof (well_formed_length _ _ _ Hwf Hy) as Hly.
  pose proof (well_formed_length _ _ _ Hwfc Hyhat) as Hlyhat.
  set (dfu := df_updated df now current_gbp).
  pose proof (forecast_adjusted_Done fc s yhat Hyhat) as Hfca.
  set (fca := setitem fc "yhat_adjusted" (mul_scalar yhat s)) in *.
  assert (Hadj : columns fca !! "yhat_adjusted" = Some (mul_scalar yhat s))
    by apply lookup_setitem_eq.
  assert (Hyu : columns dfu !! "y" = Some (y ++ [current_gbp])).
  { unfold dfu. rewrite lookup_df_updated_y, Hy. reflexivity. }
  destruct (combined_df_columns dfu fca _ _ Hyu Hadj)
    as (c & Hc & Hds & Hcy & Hca & Hcc).
  assert (Hn1 : nrows dfu = length (y ++ [current_gbp])).
  { unfold dfu, nrows, df_updated, pd_concat, today; cbn [ds].
    rewrite !length_app. unfold nrows in Hly. simpl. lia. }
  assert (Hn2 : nrows fca = length (mul_scalar yhat s)).
  { unfold mul_scalar. rewrite length_map. exact (eq_sym Hlyhat). }
  exists fca, c, ((y ++ [current_gbp]) ++ nans (nrows fca)),
    (nans (nrows dfu) ++ mul_scalar yhat s),
    (fillna ((y ++ [current_gbp]) ++ nans (nrows fca))
       (nans (nrows dfu) ++ mul_scalar yhat s)).
  split; [exact Hfca|]. split; [exact Hc|]. split; [exact Hcy|].
  split; [exact Hca|]. split; [exact Hcc|].
  intros i Hi. unfold nrows in Hi. rewrite Hds, length_app in Hi.
  fold (nrows dfu) in Hi. fold (nrows fca) in Hi.
  destruct (Nat.lt_ge_cases i (nrows dfu)) as [Hlt|Hge].
  - destruct (lookup_lt_is_Some_2 (y ++ [current_gbp]) i) as [o Ho]; [lia|].
    assert (Hno : notnull o = true).
    { assert (HF : Forall (fun v => notnull v = true) (y ++ [current_gbp])).
      { apply Forall_app. split; [exact Hnn|]. constructor; [exact Hg|constructor]. }
      exact (Forall_lookup_1 _ _ _ _ HF Ho). }
    assert (Ho' : ((y ++ [current_gbp]) ++ nans (nrows fca)) !! i = Some o).
    { rewrite lookup_app_l by lia. exact Ho. }
    assert (Ha : (nans (nrows dfu) ++ mul_scalar yhat s) !! i = Some nan).
    { rewrite lookup_app_l by (unfold nans; rewrite length_replicate; lia).
      apply lookup_replicate_2. exact Hlt. }
    exists o, nan, o. split; [exact Ho'|]. split; [exact Ha|].
    split; [|split].
    + rewrite (fillna_lookup _ _ _ _ _ Ho' Ha).
      unfold notnull in Hno. apply negb_true_iff in Hno. rewrite Hno.
      reflexivity.
    + rewrite Hno. reflexivity.
    + rewrite Hno. reflexivity.
  - destruct (lookup_lt_is_Some_2 (mul_scalar yhat s) (i - nrows dfu))
      as [a Ha0]; [lia|].
    assert (Hna : notnull a = true).
    { unfold mul_scalar in Ha0. rewrite list_lookup_fmap in Ha0.
      destruct (yhat !! (i - nrows dfu)%nat) as [v|] eqn:Hv; [|discriminate].
      injection Ha0 as <-.
      apply mul_notnull; [|exact Hpos|exact Hfin].
      exact (Forall_lookup_1 _ _ _ _ Hpp Hv). }
    assert (Ho' : ((y ++ [current_gbp]) ++ nans (nrows fca)) !! i = Some nan).
    { rewrite lookup_app_r by lia. apply lookup_replicate_2. lia. }
    assert (Ha : (nans (nrows dfu) ++ mul_scalar yhat s) !! i = Some a).
    { rewrite lookup_app_r by (unfold nans; rewrite length_replicate; lia).
      unfold nans. rewrite length_replicate. exact Ha0. }
    exists nan, a, a. split; [exact Ho'|]. split; [exact Ha|].
    split; [|split].
    + rewrite (fillna_lookup _ _ _ _ _ Ho' Ha). reflexivity.
    + rewrite Hna. reflexivity.
    + reflexivity.
Qed.

Lemma blended_row_has_one_source_witness :
  exists fca combined observed adjusted comb,
    forecast_adjusted canned_forecast 1.5 = Done fca
    /\ combined_df (df_updated history_2020 noon 1.4) fca = Done combined
    /\ columns combined !! "y" = Some observed
    /\ columns combined !! "yhat_adjusted" = Some adjusted
    /\ columns combined !! "y_combined" = Some comb
    /\ forall i, (i < nrows combined)%nat ->
         exists o a v,
           observed !! i = Some o /\ adjusted !! i = Some a
           /\ comb !! i = Some v
           /\ notnull o = negb (notnull a)
           /\ v = (if notnull o then o else a).
Proof.
  apply (blended_row_has_one_source history_2020 noon 1.4 canned_forecast 1.5
           [1.30; 1.35]%float [1.0; 2.0; 3.0]%float).
  - compute_well_formed.
  - compute_well_formed.
  - vm_compute. reflexivity.
  - repeat constructor.
  - reflexivity.
  - vm_compute. reflexivity.
  - repeat constructor.
  - reflexivity.
  - reflexivity.
Defined.

(** ** The sum of a column *)

Lemma Sum_fold (l0 l : list float) (acc : float) :
  Sum l0 acc -> Sum (l0 ++ l) (fold_left PrimFloat.add l acc).
Proof.
  revert l0 acc. induction l as [|x l IH]; intros l0 acc H; simpl.
  - rewrite app_nil_r. exact H.
  - replace (l0 ++ x :: l) with ((l0 ++ [x]) ++ l)
      by (rewrite <- app_assoc; reflexivity).
    apply IH. apply Sum_add; [exact H|apply Sum_one].
Qed.

(** The partial sums [r] add the lists [parts], one each. *)
Lemma partial_sums_step (parts : list (list float)) (r blk : list float) :
  Forall2 Sum parts r -> length blk = length r ->
  Forall2 Sum (zip_with app parts (map (fun x => [x]) blk))
    (zip_with PrimFloat.add r blk)
  /\ Permutation (concat (zip_with app parts (map (fun x => [x]) blk)))
       (concat parts ++ blk).
Proof.
  intros H. revert blk.
  induction H as [|p v parts r Hp _ IH]; intros [|x blk] Hl;
    simpl in *; try discriminate.
  - split; constructor.
  - injection Hl as Hl. destruct (IH blk Hl) as [IH1 IH2]. split.
    + constructor; [|exact IH1]. apply Sum_add; [exact Hp|apply Sum_one].
    + rewrite IH2, <- !app_assoc. apply Permutation_app_head. simpl.
      apply Permutation_middle.
Qed.

Lemma add_blocks_sums (k : nat) (parts : list (list float)) (r l : list float) :
  Forall2 Sum parts r -> length r = 8%nat -> (8 * k <= length l)%nat ->
  exists parts',
    Forall2 Sum parts' (fst (add_blocks k r l))
    /\ length (fst (add_blocks k r l)) = 8%nat
    /\ Permutation (concat parts' ++ snd (add_blocks k r l))
         (concat parts ++ l).
Proof.
  revert parts r l. induction k as [|k IH]; intros parts r l H Hr Hl; simpl.
  - exists parts. split; [exact H|]. split; [exact Hr|reflexivity].
  - assert (Hb : length (take 8 l) = length r).
    { rewrite length_take, Hr. lia. }
    destruct (partial_sums_step parts r (take 8 l) H Hb) as [H1 H2].
    assert (Hz : length (zip_with PrimFloat.add r (take 8 l)) = 8%nat).
    { rewrite length_zip_with, Hb, Hr. reflexivity. }
    assert (Hd : (8 * k <= length (drop 8 l))%nat)
      by (rewrite length_drop; lia).
    destruct (IH _ (zip_with PrimFloat.add r (take 8 l)) (drop 8 l) H1 Hz Hd)
      as (parts' & Hp & Hlen & Hperm).
    exists parts'. split; [exact Hp|]. split; [exact Hlen|].
    rewrite Hperm, H2, <- app_assoc, take_drop. reflexivity.
Qed.

Lemma tree8_sum (parts : list (list float)) (r : list float) :
  Forall2 Sum parts r -> length r = 8%nat -> Sum (concat parts) (tree8 r).
Proof.
  intros H Hr.
  destruct H as [|p0 v0 ? ? H0 H]; [discriminate Hr|].
  destruct H as [|p1 v1 ? ? H1 H]; [discriminate Hr|].
  destruct H as [|p2 v2 ? ? H2 H]; [discriminate Hr|].
  destruct H as [|p3 v3 ? ? H3 H]; [discriminate Hr|].
  destruct H as [|p4 v4 ? ? H4 H]; [discriminate Hr|].
  destruct H as [|p5 v5 ? ? H5 H]; [discriminate Hr|].
  destruct H as [|p6 v6 ? ? H6 H]; [discriminate Hr|].
  destruct H as [|p7 v7 ? ? H7 H]; [discriminate Hr|].
  destruct H; [|discriminate Hr].
  simpl. rewrite app_nil_r.
  replace (p0 ++ p1 ++ p2 ++ p3 ++ p4 ++ p5 ++ p6 ++ p7)
    with (((p0 ++ p1) ++ (p2 ++ p3)) ++ ((p4 ++ p5) ++ (p6 ++ p7)))
    by (rewrite <- !app_assoc; reflexivity).
  repeat apply Sum_add; assumption.
Qed.

Lemma singletons_sums (l : list float) :
  Forall2 Sum (map (fun x => [x]) l) l.
Proof.
  induction l as [|x l IH]; constructor; [apply Sum_one|exact IH].
Qed.

Lemma concat_singletons (l : list float) :
  concat (map (fun x => [x]) l) = l.
Proof.
  induction l as [|x l IH]; simpl; [reflexivity|].
  rewrite IH. reflexivity.
Qed.

Lemma block_sum_sum (l : list float) :
  (8 <= length l)%nat -> Sum l (block_sum l).
Proof.
  intros Hl. unfold block_sum.
  pose proof (singletons_sums (take 8 l)) as H0.
  pose proof (concat_singletons (take 8 l)) as Hc.
  assert (Ht : length (take 8 l) = 8%nat) by (rewrite length_take; lia).
  assert (Hd : (8 * (length l / 8 - 1) <= length (drop 8 l))%nat).
  { rewrite length_drop.
    pose proof (Nat.Div0.mul_div_le (length l) 8). lia. }
  destruct (add_blocks_sums (length l / 8 - 1) _ (take 8 l) (drop 8 l)
              H0 Ht Hd) as (parts & Hp & Hlen & Hperm).
  destruct (add_blocks (length l / 8 - 1) (take 8 l) (drop 8 l))
    as [r rest]. cbn [fst snd] in *.
  rewrite Hc, take_drop in Hperm.
  apply (Sum_perm _ _ _ Hperm).
  apply Sum_fold. apply tree8_sum; assumption.
Qed.

Lemma pairwise_fuel_sum (fuel : nat) (l : list float) :
  Sum l (pairwise_fuel fuel l).
Proof.
  revert l. induction fuel as [|fuel IH]; intros l; simpl.
  - destruct (length l <? 8)%nat eqn:E8.
    + apply (Sum_fold [] l). apply Sum_neg_zero.
    + apply Nat.ltb_ge in E8.
      destruct (length l <=? 128)%nat; apply block_sum_sum, E8.
  - destruct (length l <? 8)%nat eqn:E8.
    + apply (Sum_fold [] l). apply Sum_neg_zero.
    + apply Nat.ltb_ge in E8.
      destruct (length l <=? 128)%nat; [apply block_sum_sum, E8|].
      rewrite <- (take_drop (length l / 2 - (length l / 2) mod 8) l) at 1.
      apply Sum_add; apply IH.
Qed.

(** Numpy's sum adds every value of the array, once. *)
Lemma np_sum_sum (l : list float) : Sum l (np_sum l).
Proof.
  unfold np_sum, pairwise_sum.
  apply (Sum_add [] l); [apply Sum_zero|apply pairwise_fuel_sum].
Qed.

Lemma pairwise_fuel_eq (fuel : nat) (l : list float) :
  pairwise_fuel fuel l
  = if (length l <? 8)%nat then fold_left PrimFloat.add l (-0)%float
    else if (length l <=? 128)%nat then block_sum l
    else match fuel with
         | O => block_sum l
         | S fuel' =>
             (pairwise_fuel fuel'
                (take (length l / 2 - (length l / 2) mod 8) l)
              + pairwise_fuel fuel'
                  (drop (length l / 2 - (length l / 2) mod 8) l))%float
         end.
Proof. destruct fuel; reflexivity. Qed.

Lemma pairwise_fuel_stable (n : nat) (l : list float) (f1 f2 : nat) :
  (length l <= n)%nat -> (length l <= f1)%nat -> (length l <= f2)%nat ->
  pairwise_fuel f1 l = pairwise_fuel f2 l.
Proof.
  revert l f1 f2. induction n as [|n IH]; intros l f1 f2 Hn H1 H2;
    rewrite (pairwise_fuel_eq f1 l), (pairwise_fuel_eq f2 l).
  - replace (length l) with 0%nat by lia. reflexivity.
  - destruct (length l <? 8)%nat; [reflexivity|].
    destruct (length l <=? 128)%nat eqn:E128; [reflexivity|].
    apply Nat.leb_gt in E128.
    destruct f1 as [|f1]; [lia|]. destruct f2 as [|f2]; [lia|].
    set (n2 := (length l / 2 - (length l / 2) mod 8)%nat).
    assert (Hn2 : (0 < n2 < length l)%nat).
    { unfold n2. pose proof (Nat.mod_upper_bound (length l / 2) 8).
      assert (length l / 2 < length l)%nat
        by (apply Nat.Div0.div_lt_upper_bound; lia).
      assert (64 <= length l / 2)%nat by (apply Nat.div_le_lower_bound; lia).
      lia. }
    assert (Ht : length (take n2 l) = n2) by (rewrite length_take; lia).
    assert (Hd : length (drop n2 l) = (length l - n2)%nat)
      by (rewrite length_drop; lia).
    rewrite (IH (take n2 l) f1 f2) by lia.
    rewrite (IH (drop n2 l) f1 f2) by lia.
    reflexivity.
Qed.

(** The fuel [pairwise_sum] gives is enough: more changes nothing. *)
Lemma pairwise_fuel_enough (fuel : nat) (l : list float) :
  (length l <= fuel)%nat -> pairwise_fuel fuel l = pairwise_sum l.
Proof.
  intros H. unfold pairwise_sum.
  apply (pairwise_fuel_stable (length l)); lia.
Qed.

(** ** The mean of two values *)

Lemma nonzero_unchanged_by_zero (x : float) :
  is_zero x = false -> unchanged_by_zero x.
Proof.
  unfold is_zero. rewrite FloatAxioms.eqb_spec.
  change (Prim2SF 0) with (S754_zero false). intros H.
  repeat split; apply Prim2SF_inj; rewrite add_spec;
    [change (Prim2SF 0) with (S754_zero false)
    |change (Prim2SF (-0)) with (S754_zero true)
    |change (Prim2SF 0) with (S754_zero false)
    |change (Prim2SF (-0)) with (S754_zero true)];
    destruct (Prim2SF x) as [sx|sx| |sx mx ex]; try reflexivity;
    discriminate H.
Qed.

Lemma SFadd_comm (x y : spec_float) :
  SFadd prec emax x y = SFadd prec emax y x.
Proof.
  destruct x as [sx|sx| |sx mx ex], y as [sy|sy| |sy my ey]; simpl;
    try reflexivity;
    try (destruct sx, sy; reflexivity).
  rewrite (Z.min_comm ey ex).
  rewrite (Z.add_comm (cond_Zopp sy _)). reflexivity.
Qed.

Lemma add_comm (x y : float) : (x + y = y + x)%float.
Proof.
  apply Prim2SF_inj. rewrite !add_spec. apply SFadd_comm.
Qed.

Section TwoValues.

Variables a b : float.
Hypothesis Ha : unchanged_by_zero a.
Hypothesis Hb : unchanged_by_zero b.
Hypothesis Hab : unchanged_by_zero (a + b).

Lemma sum_of_add (na1 nb1 na2 nb2 : nat) (v1 v2 : float) :
  sum_of a b na1 nb1 v1 -> sum_of a b na2 nb2 v2 ->
  (na1 + na2 <= 1)%nat -> (nb1 + nb2 <= 1)%nat ->
  sum_of a b (na1 + na2) (nb1 + nb2) (v1 + v2).
Proof.
  destruct Ha as (Ha1 & Ha2 & Ha3 & Ha4), Hb as (Hb1 & Hb2 & Hb3 & Hb4),
    Hab as (Hs1 & Hs2 & Hs3 & Hs4).
  destruct na1 as [|[|?]], nb1 as [|[|?]], na2 as [|[|?]], nb2 as [|[|?]];
    simpl; intros H1 H2 Hna Hnb; try lia; try contradiction;
    try (destruct H1 as [-> | ->]); try (destruct H2 as [-> | ->]);
    subst; auto using add_comm.
Qed.

Lemma Holds_app_inv (l1 l2 : list float) (na nb : nat) :
  Holds a b (l1 ++ l2) na nb ->
  exists na1 nb1 na2 nb2,
    Holds a b l1 na1 nb1 /\ Holds a b l2 na2 nb2
    /\ na = (na1 + na2)%nat /\ nb = (nb1 + nb2)%nat.
Proof.
  revert na nb. induction l1 as [|x l1 IH]; intros na nb H; simpl in H.
  - exists 0%nat, 0%nat, na, nb. repeat split; [constructor|exact H].
  - inversion H as [|l na' nb' H'|l na' nb' H'|l na' nb' H']; subst;
      destruct (IH _ _ H') as (na1 & nb1 & na2 & nb2 & H1 & H2 & -> & ->).
    + exists na1, nb1, na2, nb2. repeat split; [constructor|]; assumption.
    + exists (S na1), nb1, na2, nb2. repeat split; [constructor|]; assumption.
    + exists na1, (S nb1), na2, nb2. repeat split; [constructor|]; assumption.
Qed.

Lemma Holds_perm (l l' : list float) :
  Permutation l l' -> forall na nb, Holds a b l na nb -> Holds a b l' na nb.
Proof.
  induction 1 as [|x l l' _ IH|x y l|l l' l'' _ IH1 _ IH2]; intros na nb H.
  - exact H.
  - inversion H; subst; constructor; apply IH; assumption.
  - inversion H as [|? ? ? H'|? ? ? H'|? ? ? H']; subst;
      inversion H'; subst; repeat constructor; assumption.
  - apply IH2, IH1, H.
Qed.

(** However the values are added, the sum is the same. *)
Lemma Sum_of_two (l : list float) (v : float) :
  Sum l v ->
  forall na nb, Holds a b l na nb -> (na <= 1)%nat -> (nb <= 1)%nat ->
  sum_of a b na nb v.
Proof.
  induction 1 as [| |x|l1 l2 v1 v2 _ IH1 _ IH2|l l' v Hp _ IH];
    intros na nb H Hna Hnb.
  - inversion H; subst. left. reflexivity.
  - inversion H; subst. right. reflexivity.
  - inversion H as [|? ? ? H'|? ? ? H'|? ? ? H']; subst;
      inversion H'; subst; simpl; auto.
  - destruct (Holds_app_inv _ _ _ _ H)
      as (na1 & nb1 & na2 & nb2 & H1 & H2 & -> & ->).
    apply sum_of_add; [apply IH1|apply IH2| |]; try assumption; lia.
  - apply IH; [|assumption|assumption].
    apply (Holds_perm l' l); [symmetry; exact Hp|exact H].
Qed.

Lemma zero_filled_none (col : list float) :
  List.filter notnull col = [] -> Holds a b (map zero_fill col) 0 0.
Proof.
  induction col as [|x col IH]; simpl; [constructor|].
  unfold notnull at 1, zero_fill at 1.
  destruct (PrimFloat.is_nan x); simpl; [|discriminate].
  intros H. constructor. apply IH, H.
Qed.

Lemma zero_filled_second (col : list float) :
  List.filter notnull col = [b] -> Holds a b (map zero_fill col) 0 1.
Proof.
  induction col as [|x col IH]; simpl; [discriminate|].
  unfold notnull at 1, zero_fill at 1.
  destruct (PrimFloat.is_nan x); simpl.
  - intros H. constructor. apply IH, H.
  - intros [= -> H]. constructor. apply zero_filled_none, H.
Qed.

Lemma zero_filled_two (col : list float) :
  List.filter notnull col = [a; b] -> Holds a b (map zero_fill col) 1 1.
Proof.
  induction col as [|x col IH]; simpl; [discriminate|].
  unfold notnull at 1, zero_fill at 1.
  destruct (PrimFloat.is_nan x); simpl.
  - intros H. constructor. apply IH, H.
  - intros [= -> H]. constructor. apply zero_filled_second, H.
Qed.

(** The mean of a column whose values present are [a] and [b] is their
    sum by two, wherever its nulls are. *)
Lemma mean_of_two (col : list float) :
  List.filter notnull col = [a; b] -> mean col = ((a + b) / 2)%float.
Proof.
  intros H. unfold mean. rewrite H. cbn [length].
  pose proof (Sum_of_two _ _ (np_sum_sum (map zero_fill col)) 1%nat 1%nat
                (zero_filled_two col H) (le_n _) (le_n _)) as Hs.
  simpl in Hs. rewrite Hs. reflexivity.
Qed.

End TwoValues.

(** Ten rates of 0.1 followed by nulls: the pairwise sum gives the mean
    0.1, where adding from left to right would give 0.09999999999999999. *)
Lemma mean_of_ten_tenths (k : nat) :
  (k <= 10)%nat -> mean (replicate 10 0.1%float ++ nans k) = 0.1%float.
Proof.
  intros H.
  do 11 (destruct k as [|k]; [vm_compute; reflexivity|]). lia.
Qed.

(** ** The year summary *)

(** The blended frame of a run, from what the run is given. *)
Lemma blend_columns (df : DataFrame) (now : datetime) (g : float)
  (fc : DataFrame) (s : float) (yhat : list float) :
  columns fc !! "yhat" = Some yhat ->
  exists c,
    combined_df (df_updated df now g)
      (setitem fc "yhat_adjusted" (mul_scalar yhat s)) = Done c
    /\ ds c = (ds df ++ [now]) ++ ds fc
    /\ columns c !! "y"
       = Some ((default (nans (nrows df)) (columns df !! "y") ++ [g])
               ++ nans (nrows fc))
    /\ columns c !! "yhat_adjusted"
       = Some (nans (nrows df + 1) ++ mul_scalar yhat s).
Proof.
  intros Hyhat.
  destruct (combined_df_columns (df_updated df now g)
              (setitem fc "yhat_adjusted" (mul_scalar yhat s)) _ _
              (lookup_df_updated_y df now g)
              (lookup_setitem_eq fc "yhat_adjusted" (mul_scalar yhat s)))
    as (c & Hc & Hds & Hcy & Hca & _).
  exists c. split; [exact Hc|]. split; [exact Hds|]. split; [exact Hcy|].
  rewrite Hca. unfold nrows, df_updated, pd_concat, today; cbn [ds].
  rewrite length_app. reflexivity.
Qed.

Lemma selected_year_data_empty (c : DataFrame) (sel : Z) :
  empty_frame (selected_year_data c sel) = false
  <-> exists t, In t (ds c) /\ year t = sel.
Proof.
  unfold empty_frame, selected_year_data, nrows, loc; cbn [ds].
  rewrite mask_select_map_filter, Nat.eqb_neq.
  split.
  - intros H.
    destruct (List.filter (fun t => year t =? sel) (ds c)) as [|t l] eqn:Hf;
      [contradiction H; reflexivity|].
    assert (Hin : In t (List.filter (fun t => year t =? sel) (ds c)))
      by (rewrite Hf; left; reflexivity).
    apply filter_In in Hin. destruct Hin as [Hin Hy].
    exists t. split; [exact Hin|]. apply Z.eqb_eq, Hy.
  - intros (t & Hin & Hy) H.
    assert (Hin' : In t (List.filter (fun t => year t =? sel) (ds c))).
    { apply filter_In. split; [exact Hin|]. apply Z.eqb_eq, Hy. }
    destruct (List.filter (fun t => year t =? sel) (ds c));
      [exact Hin'|discriminate].
Qed.

Lemma year_summary_historical (c : DataFrame) (sel : Z) (clock : datetime)
  (s : float) (y : list float) :
  columns c !! "y" = Some y ->
  (exists t, In t (ds c) /\ year t = sel) ->
  sel <= year clock ->
  let r := mean (mask_select (map (fun t => year t =? sel) (ds c)) y) in
  year_summary c sel clock s = Done (Historical sel r (r * s)%float).
Proof.
  intros Hy Hex Hle. unfold year_summary.
  rewrite (proj2 (selected_year_data_empty c sel) Hex). cbn [negb].
  rewrite (proj2 (Z.leb_le _ _) Hle).
  erewrite getitem_lookup
    by (unfold selected_year_data; rewrite lookup_loc, Hy; reflexivity).
  reflexivity.
Qed.

Lemma year_summary_forecasted (c : DataFrame) (sel : Z) (clock : datetime)
  (s : float) (a : list float) :
  columns c !! "yhat_adjusted" = Some a ->
  (exists t, In t (ds c) /\ year t = sel) ->
  year clock < sel ->
  year_summary c sel clock s
  = Done (Forecasted sel
            (mean (mask_select (map (fun t => year t =? sel) (ds c)) a))).
Proof.
  intros Ha Hex Hlt. unfold year_summary.
  rewrite (proj2 (selected_year_data_empty c sel) Hex). cbn [negb].
  rewrite (proj2 (Z.leb_gt _ _) Hlt).
  erewrite getitem_lookup
    by (unfold selected_year_data; rewrite lookup_loc, Ha; reflexivity).
  reflexivity.
Qed.

Lemma values_in_year_row (sel : Z) (dates : list datetime) (col : list float) :
  values_in_year sel dates col <> [] ->
  exists t, In t dates /\ year t = sel.
Proof.
  unfold values_in_year. intros H.
  destruct (List.filter (fun r => year (fst r) =? sel) (combine dates col))
    as [|[t v] l] eqn:E; [contradiction H; reflexivity|].
  assert (Hin : In (t, v) (List.filter (fun r => year (fst r) =? sel)
                             (combine dates col)))
    by (rewrite E; left; reflexivity).
  apply filter_In in Hin. destruct Hin as [Hin Hy].
  exists t. split; [exact (in_combine_l _ _ _ _ Hin)|].
  apply Z.eqb_eq, Hy.
Qed.

Lemma present_values_row (sel : Z) (dates : list datetime) (col : list float)
  (x : float) (l : list float) :
  List.filter notnull (values_in_year sel dates col) = x :: l ->
  exists t, In t dates /\ year t = sel.
Proof.
  intros H. apply (values_in_year_row sel dates col).
  intros E. rewrite E in H. discriminate H.
Qed.

(** C3.  In the blended frame of a run (well-formed history and forecast),
    for every selected year with at least one matching row: when the year is
    at most the year of the clock, the summary reports the mean of the
    observed values of the matching rows, and that mean times the scale;
    otherwise it reports the mean of their adjusted predictions.  The mean
    is pandas': a sum of the values present, each added once, nulls counting
    for zero, divided by their number.  When the observed values present in
    the matching rows are two, [a] and [b], the average reported is
    [(a + b) / 2], wherever the nulls are; for 1.30 and 1.40 it is 1.35 and,
    with scale 2.0, the adjusted average is 2.70.  For ten rates of 0.1 the
    average reported is 0.1 and, with scale 1.5, the adjusted average is
    0.15000000000000002. *)
Theorem year_summary_reports_mean
  (df : DataFrame) (now : datetime) (current_gbp : float)
  (fc : DataFrame) (usd : float) (yhat : list float) :
  well_formed df -> well_formed fc ->
  columns fc !! "yhat" = Some yhat ->
  exists fca combined observed adjusted,
    forecast_adjusted fc usd = Done fca
    /\ combined_df (df_updated df now current_gbp) fca = Done combined
    /\ columns combined !! "y" = Some observed
    /\ columns combined !! "yhat_adjusted" = Some adjusted
    /\ (forall sel,
          (exists t, In t (ds combined) /\ year t = sel) ->
          year_summary combined sel now usd
          = Done (if sel <=? year now
                  then let r := mean (values_in_year sel (ds combined) observed) in
                       Historical sel r (r * usd)%float
                  else Forecasted sel
                         (mean (values_in_year sel (ds combined) adjusted))))
    /\ (forall sel x l,
          sel <= year now ->
          List.filter notnull (values_in_year sel (ds combined) observed)
          = x :: l ->
          exists s,
            Sum (map zero_fill (values_in_year sel (ds combined) observed)) s
            /\ year_summary combined sel now usd
               = Done (let r := (s / float_of_nat (length (x :: l)))%float in
                       Historical sel r (r * usd)%float))
    /\ (forall sel a b,
          sel <= year now ->
          is_zero a = false -> is_zero b = false -> is_zero (a + b) = false ->
          List.filter notnull (values_in_year sel (ds combined) observed)
          = [a; b] ->
          year_summary combined sel now usd
          = Done (Historical sel ((a + b) / 2) ((a + b) / 2 * usd))%float)
    /\ (forall sel,
          sel <= year now ->
          List.filter notnull (values_in_year sel (ds combined) observed)
          = [1.30; 1.40]%float ->
          usd = 2.0%float ->
          year_summary combined sel now usd
          = Done (Historical sel 1.35 2.70))
    /\ (forall sel k,
          sel <= year now -> (k <= 10)%nat ->
          values_in_year sel (ds combined) observed
          = replicate 10 0.1%float ++ nans k ->
          usd = 1.5%float ->
          year_summary combined sel now usd
          = Done (Historical sel 0.1 0.15000000000000002)).
Proof.
  intros Hwf Hwfc Hyhat.
  destruct (blend_columns df now current_gbp fc usd yhat Hyhat)
    as (c & Hc & Hds & Hcy & Hca).
  set (obs := (default (nans (nrows df)) (columns df !! "y") ++ [current_gbp])
              ++ nans (nrows fc)) in *.
  set (adj := nans (nrows df + 1) ++ mul_scalar yhat usd) in *.
  assert (Hlo : length obs = length (ds c)).
  { unfold obs. rewrite Hds, !length_app. unfold nans at 2.
    rewrite length_replicate. fold (nrows df). fold (nrows fc).
    destruct (columns df !! "y") as [y|] eqn:Hy; simpl.
    - rewrite (well_formed_length _ _ _ Hwf Hy). reflexivity.
    - unfold nans. rewrite length_replicate. reflexivity. }
  assert (Hla : length adj = length (ds c)).
  { unfold adj, mul_scalar. rewrite Hds, !length_app, length_map.
    unfold nans. rewrite length_replicate.
    rewrite (well_formed_length _ _ _ Hwfc Hyhat). reflexivity. }
  assert (Hgen : forall sel,
            (exists t, In t (ds c) /\ year t = sel) ->
            year_summary c sel now usd
            = Done (if sel <=? year now
                    then let r := mean (values_in_year sel (ds c) obs) in
                         Historical sel r (r * usd)%float
                    else Forecasted sel (mean (values_in_year sel (ds c) adj)))).
  { intros sel Hex. destruct (Z.leb_spec sel (year now)) as [Hle|Hgt].
    - rewrite (year_summary_historical c sel now usd obs Hcy Hex Hle).
      rewrite (mask_select_year sel (ds c) obs Hlo). reflexivity.
    - rewrite (year_summary_forecasted c sel now usd adj Hca Hex Hgt).
      rewrite (mask_select_year sel (ds c) adj Hla). reflexivity. }
  assert (Hhist : forall sel x l,
            sel <= year now ->
            List.filter notnull (values_in_year sel (ds c) obs) = x :: l ->
            year_summary c sel now usd
            = Done (let r := mean (values_in_year sel (ds c) obs) in
                    Historical sel r (r * usd)%float)).
  { intros sel x l Hle Hvals.
    rewrite (Hgen sel (present_values_row _ _ _ _ _ Hvals)).
    rewrite (proj2 (Z.leb_le _ _) Hle). reflexivity. }
  exists (setitem fc "yhat_adjusted" (mul_scalar yhat usd)), c, obs, adj.
  split; [apply (forecast_adjusted_Done _ _ _ Hyhat)|].
  split; [exact Hc|]. split; [exact Hcy|]. split; [exact Hca|].
  split; [exact Hgen|]. split; [|split; [|split]].
  - intros sel x l Hle Hvals.
    exists (np_sum (map zero_fill (values_in_year sel (ds c) obs))).
    split; [apply np_sum_sum|].
    rewrite (Hhist sel x l Hle Hvals). unfold mean. rewrite Hvals.
    reflexivity.
  - intros sel a b Hle Ha Hb Hab Hvals.
    rewrite (Hhist sel a [b] Hle Hvals). cbv zeta.
    rewrite (mean_of_two a b (nonzero_unchanged_by_zero a Ha)
               (nonzero_unchanged_by_zero b Hb)
               (nonzero_unchanged_by_zero _ Hab) _ Hvals).
    reflexivity.
  - intros sel Hle Hvals ->.
    rewrite (Hhist sel _ _ Hle Hvals). cbv zeta.
    rewrite (mean_of_two 1.30 1.40 (nonzero_unchanged_by_zero 1.30 eq_refl)
               (nonzero_unchanged_by_zero 1.40 eq_refl)
               (nonzero_unchanged_by_zero (1.30 + 1.40) eq_refl) _ Hvals).
    reflexivity.
  - intros sel k Hle Hk Hvals ->.
    assert (Hp : List.filter notnull (values_in_year sel (ds c) obs)
                 = 0.1%float :: List.filter notnull
                                  (replicate 9 0.1%float ++ nans k))
      by (rewrite Hvals; reflexivity).
    rewrite (Hhist sel _ _ Hle Hp). cbv zeta.
    rewrite Hvals, (mean_of_ten_tenths k Hk). reflexivity.
Qed.

Lemma year_summary_reports_mean_witness :
  exists fca combined observed adjusted,
    forecast_adjusted canned_forecast 2.0 = Done fca
    /\ combined_df (df_updated history_2024 noon 1.40) fca = Done combined
    /\ columns combined !! "y" = Some observed
    /\ columns combined !! "yhat_adjusted" = Some adjusted
    /\ (forall sel,
          (exists t, In t (ds combined) /\ year t = sel) ->
          year_summary combined sel noon 2.0
          = Done (if sel <=? year noon
                  then let r := mean (values_in_year sel (ds combined) observed) in
                       Historical sel r (r * 2.0)%float
                  else Forecasted sel
                         (mean (values_in_year sel (ds combined) adjusted))))
    /\ (forall sel x l,
          sel <= year noon ->
          List.filter notnull (values_in_year sel (ds combined) observed)
          = x :: l ->
          exists s,
            Sum (map zero_fill (values_in_year sel (ds combined) observed)) s
            /\ year_summary combined sel noon 2.0
               = Done (let r := (s / float_of_nat (length (x :: l)))%float in
                       Historical sel r (r * 2.0)%float))
    /\ (forall sel a b,
          sel <= year noon ->
          is_zero a = false -> is_zero b = false -> is_zero (a + b) = false ->
          List.filter notnull (values_in_year sel (ds combined) observed)
          = [a; b] ->
          year_summary combined sel noon 2.0
          = Done (Historical sel ((a + b) / 2) ((a + b) / 2 * 2.0))%float)
    /\ (forall sel,
          sel <= year noon ->
          List.filter notnull (values_in_year sel (ds combined) observed)
          = [1.30; 1.40]%float ->
          2.0%float = 2.0%float ->
          year_summary combined sel noon 2.0
          = Done (Historical sel 1.35 2.70))
    /\ (forall sel k,
          sel <= year noon -> (k <= 10)%nat ->
          values_in_year sel (ds combined) observed
          = replicate 10 0.1%float ++ nans k ->
          2.0%float = 1.5%float ->
          year_summary combined sel noon 2.0
          = Done (Historical sel 0.1 0.15000000000000002)).
Proof.
  apply (year_summary_reports_mean history_2024 noon 1.40 canned_forecast 2.0
           [1.0; 2.0; 3.0]%float).
  - compute_well_formed.
  - compute_well_formed.
  - vm_compute. reflexivity.
Defined.

(** Scenario D as a run: one row of 2024 at 1.30 in the file, the anchor of
    1 June 2024 at 1.40, scale 2.0; the forecast has a row in 2024 too,
    whose observed value is null and counts for zero in the sum. *)
Example current_year_run :
  report_of (dashboard (replay canned_forecast) history_2024 (run_2024 1.40))
  = Some (Historical 2024 1.35 2.70).
Proof. vm_compute. reflexivity. Qed.

(** Ten rates of 0.1 in the file for 2023, and the engine's predictions for
    the same ten days: twenty rows match, ten of them null. *)
Example ten_tenths_run :
  summary_of_run ten_tenths noon 1.40 ten_tenths_forecast 1.5 2023 noon
  = Done (Historical 2023 0.1 0.15000000000000002).
Proof. vm_compute. reflexivity. Qed.

(** C4.  When no row of the blended frame falls in the selected year, the
    summary is the notice that there is no data for that year: the run goes
    on, no rate is reported, and no column is read, so that nothing is
    averaged (the frame need not even have the columns). *)
Theorem empty_year_reports_no_data
  (combined : DataFrame) (sel : Z) (clock : datetime) (usd : float) :
  (forall t, In t (ds combined) -> year t <> sel) ->
  year_summary combined sel clock usd = Done (NoData sel)
  /\ nrows (selected_year_data combined sel) = 0%nat
  /\ (forall e, year_summary combined sel clock usd <> Raised e)
  /\ (forall y a b, year_summary combined sel clock usd <> Done (Historical y a b))
  /\ (forall y a, year_summary combined sel clock usd <> Done (Forecasted y a)).
Proof.
  intros Hno.
  assert (He : empty_frame (selected_year_data combined sel) = true).
  { apply not_false_iff_true. intros H.
    apply selected_year_data_empty in H. destruct H as (t & Hin & Hy).
    exact (Hno t Hin Hy). }
  assert (Hr : year_summary combined sel clock usd = Done (NoData sel)).
  { unfold year_summary. rewrite He. reflexivity. }
  split; [exact Hr|]. split; [apply Nat.eqb_eq, He|].
  rewrite Hr. repeat split; intros; discriminate.
Qed.

Lemma empty_year_reports_no_data_witness :
  year_summary history_2020 2019 noon 1.0 = Done (NoData 2019)
  /\ nrows (selected_year_data history_2020 2019) = 0%nat
  /\ (forall e, year_summary history_2020 2019 noon 1.0 <> Raised e)
  /\ (forall y a b, year_summary history_2020 2019 noon 1.0
                     <> Done (Historical y a b))
  /\ (forall y a, year_summary history_2020 2019 noon 1.0
                   <> Done (Forecasted y a)).
Proof.
  apply (empty_year_reports_no_data history_2020 2019 noon 1.0).
  intros t [<-|[<-|[]]]; simpl; lia.
Defined.

(** ** The anchor in the average of the current year *)

Lemma mask_select_nans {A} (p : A -> bool) (l : list A) :
  mask_select (map p l) (nans (length l)) = nans (length (List.filter p l)).
Proof.
  induction l as [|x l IH]; simpl; [reflexivity|].
  fold (nans (length l)). rewrite IH. destruct (p x); reflexivity.
Qed.

(** The observed values of the rows of a year in the blended frame: those
    of the file, the anchor when the year is its year, and one null for
    each forecast row of the year. *)
Lemma observed_of_year (df : DataFrame) (now : datetime) (g : float)
  (fc : DataFrame) (y : list float) (sel : Z) :
  length y = length (ds df) ->
  mask_select (map (fun t => year t =? sel) ((ds df ++ [now]) ++ ds fc))
    ((y ++ [g]) ++ nans (nrows fc))
  = (values_in_year sel (ds df) y ++ (if year now =? sel then [g] else []))
    ++ nans (length (List.filter (fun t => year t =? sel) (ds fc))).
Proof.
  intros Hly. rewrite !map_app.
  rewrite mask_select_app by (rewrite !length_app, !length_map, Hly; reflexivity).
  rewrite mask_select_app by (rewrite length_map, Hly; reflexivity).
  rewrite (mask_select_year sel (ds df) y Hly).
  unfold nrows. rewrite mask_select_nans.
  simpl. destruct (year now =? sel); reflexivity.
Qed.

(** C10.  When the selected year is the year of the clock, the row of the
    anchor is one of the matching rows of the blended frame: the observed
    values that pandas averages for the "actual" rate are the file's rates
    of that year, then the rate the user entered, then one null for each
    forecast row of the year.  Two runs on the same file that differ by the
    entered rate only report different averages. *)
Theorem current_year_average_includes_anchor
  (df : DataFrame) (now : datetime) (current_gbp : float)
  (fc : DataFrame) (usd : float) (y yhat : list float) :
  well_formed df ->
  columns df !! "y" = Some y ->
  columns fc !! "yhat" = Some yhat ->
  exists fca combined observed,
    forecast_adjusted fc usd = Done fca
    /\ combined_df (df_updated df now current_gbp) fca = Done combined
    /\ columns combined !! "y" = Some observed
    /\ ds combined !! nrows df = Some now
    /\ observed !! nrows df = Some current_gbp
    /\ (let averaged :=
          (values_in_year (year now) (ds df) y ++ [current_gbp])
          ++ nans (length (List.filter (fun t => year t =? year now) (ds fc))) in
        values_in_year (year now) (ds combined) observed = averaged
        /\ year_summary combined (year now) now usd
           = Done (Historical (year now) (mean averaged)
                     (mean averaged * usd)%float))
    /\ summary_of_run history_2024 noon 1.40 canned_forecast 2.0 2024 noon
       <> summary_of_run history_2024 noon 1.50 canned_forecast 2.0 2024 noon.
Proof.
  intros Hwf Hy Hyhat.
  pose proof (well_formed_length _ _ _ Hwf Hy) as Hly. unfold nrows in Hly.
  destruct (blend_columns df now current_gbp fc usd yhat Hyhat)
    as (c & Hc & Hds & Hcy & _).
  rewrite Hy in Hcy. cbn [from_option id] in Hcy.
  exists (setitem fc "yhat_adjusted" (mul_scalar yhat usd)), c,
    ((y ++ [current_gbp]) ++ nans (nrows fc)).
  split; [apply (forecast_adjusted_Done _ _ _ Hyhat)|].
  split; [exact Hc|]. split; [exact Hcy|].
  split; [|split; [|split]].
  - rewrite Hds, <- app_assoc. unfold nrows.
    rewrite lookup_app_r by lia. rewrite Nat.sub_diag. reflexivity.
  - rewrite <- app_assoc. unfold nrows. rewrite <- Hly.
    rewrite lookup_app_r by lia. rewrite Nat.sub_diag. reflexivity.
  - assert (Hex : exists t, In t (ds c) /\ year t = year now).
    { exists now. split; [|reflexivity].
      rewrite Hds. apply in_or_app. left. apply in_or_app. right.
      left. reflexivity. }
    assert (Hlen : length ((y ++ [current_gbp]) ++ nans (nrows fc))
                   = length (ds c)).
    { rewrite Hds, !length_app, length_nans, Hly. reflexivity. }
    assert (Hsel : values_in_year (year now) (ds c)
                     ((y ++ [current_gbp]) ++ nans (nrows fc))
                   = (values_in_year (year now) (ds df) y ++ [current_gbp])
                     ++ nans (length (List.filter
                                        (fun t => year t =? year now) (ds fc)))).
    { rewrite <- (mask_select_year _ _ _ Hlen), Hds.
      rewrite (observed_of_year df now current_gbp fc y (year now) Hly).
      rewrite Z.eqb_refl. reflexivity. }
    cbv zeta. split; [exact Hsel|].
    rewrite (year_summary_historical c (year now) now usd _ Hcy Hex (Z.le_refl _)).
    cbv zeta. rewrite (mask_select_year _ _ _ Hlen), Hsel. reflexivity.
  - vm_compute. discriminate.
Qed.

Lemma current_year_average_includes_anchor_witness :
  exists fca combined observed,
    forecast_adjusted canned_forecast 2.0 = Done fca
    /\ combined_df (df_updated history_2024 noon 1.40) fca = Done combined
    /\ columns combined !! "y" = Some observed
    /\ ds combined !! nrows history_2024 = Some noon
    /\ observed !! nrows history_2024 = Some 1.40%float
    /\ (let averaged :=
          (values_in_year (year noon) (ds history_2024) [1.30]%float
           ++ [1.40]%float)
          ++ nans (length (List.filter (fun t => year t =? year noon)
                             (ds canned_forecast))) in
        values_in_year (year noon) (ds combined) observed = averaged
        /\ year_summary combined (year noon) noon 2.0
           = Done (Historical (year noon) (mean averaged)
                     (mean averaged * 2.0)%float))
    /\ summary_of_run history_2024 noon 1.40 canned_forecast 2.0 2024 noon
       <> summary_of_run history_2024 noon 1.50 canned_forecast 2.0 2024 noon.
Proof.
  apply (current_year_average_includes_anchor history_2024 noon 1.40
           canned_forecast 2.0 [1.30]%float [1.0; 2.0; 3.0]%float).
  - compute_well_formed.
  - vm_compute. reflexivity.
  - vm_compute. reflexivity.
Defined.

(** ** The anchor and the sidebar *)

(** C7, refuted as stated: given the anchor -1.0, the normalizer raises
    nothing and returns the merged frame, whose last rate is -1.0. *)
Lemma normalizer_accepts_negative_anchor :
  (-1.0 <=? 0)%float = true
  /\ (forall e, series_normalizer history_2020 noon (-1.0) <> Raised e)
  /\ exists merged y,
       series_normalizer history_2020 noon (-1.0) = Done merged
       /\ columns merged !! "y" = Some y
       /\ y = [1.30; 1.35; -1.0]%float.
Proof.
  split; [reflexivity|]. split; [intros e; discriminate|].
  eexists. eexists. split; [reflexivity|].
  split; [vm_compute; reflexivity|reflexivity].
Qed.

(** C7, amended.  The normalizer checks nothing: for every anchor value it
    returns the merged frame and raises no error.  A non-positive anchor is
    stopped before it, by the sidebar: the number input of the rate has
    minimum 0.1, so the anchor of a run is strictly positive. *)
Theorem anchor_is_guarded_by_the_sidebar
  (df : DataFrame) (now : datetime) (current_gbp : float) :
  returns current_gbp_input current_gbp ->
  (0 <? current_gbp)%float = true
  /\ (current_gbp <=? 0)%float = false
  /\ (forall g, series_normalizer df now g = Done (df_updated df now g))
  /\ (forall g e, series_normalizer df now g <> Raised e).
Proof.
  intros H.
  pose proof (returns_positive current_gbp_input current_gbp eq_refl H) as Hp.
  split; [exact Hp|]. split; [exact (positive_not_le_zero _ Hp)|].
  split; [reflexivity|]. intros g e. discriminate.
Qed.

Lemma anchor_is_guarded_by_the_sidebar_witness :
  (0 <? 1.40)%float = true
  /\ (1.40 <=? 0)%float = false
  /\ (forall g, series_normalizer history_2020 noon g
                = Done (df_updated history_2020 noon g))
  /\ (forall g e, series_normalizer history_2020 noon g <> Raised e).
Proof.
  apply (anchor_is_guarded_by_the_sidebar history_2020 noon 1.40).
  reflexivity.
Defined.

(** * Further properties of the script *)

(** ** The combined column *)

(** There is one NaN. *)
Lemma is_nan_eq (x : float) : PrimFloat.is_nan x = true -> x = nan.
Proof.
  intros H. apply Prim2SF_inj. rewrite (proj2 (Prim2SF_nan x) H).
  reflexivity.
Qed.

Lemma fillna_nans_r (col : list float) (n : nat) :
  fillna col (nans n) = col.
Proof.
  revert n. induction col as [|x col IH]; intros [|n]; simpl;
    try reflexivity.
  fold (nans n). rewrite IH.
  destruct (PrimFloat.is_nan x) eqn:E; [|reflexivity].
  rewrite (is_nan_eq x E). reflexivity.
Qed.

Lemma fillna_nans_l (n : nat) (other : list float) :
  length other = n -> fillna (nans n) other = other.
Proof.
  revert other. induction n as [|n IH]; intros [|o other] H; simpl in *;
    try discriminate; [reflexivity|].
  injection H as H. fold (nans n). rewrite (IH _ H). reflexivity.
Qed.

Lemma fillna_app (c1 c2 o1 o2 : list float) :
  length c1 = length o1 ->
  fillna (c1 ++ c2) (o1 ++ o2) = fillna c1 o1 ++ fillna c2 o2.
Proof.
  revert o1. induction c1 as [|x c1 IH]; intros [|o o1] H; simpl in *;
    try discriminate; [reflexivity|].
  injection H as H. rewrite (IH _ H). reflexivity.
Qed.

(** X2.  The combined column of the blended frame is the rate column of the
    merged history followed by the adjusted predictions: the fill gives
    every forecast row its adjusted prediction and leaves every historical
    row as it is, a missing rate included (it is not filled from the
    forecast). *)
Theorem combined_column_is_history_then_forecast
  (df : DataFrame) (now : datetime) (current_gbp : float)
  (fc : DataFrame) (usd : float) (y yhat : list float) :
  well_formed df -> well_formed fc ->
  columns df !! "y" = Some y ->
  columns fc !! "yhat" = Some yhat ->
  exists fca combined,
    forecast_adjusted fc usd = Done fca
    /\ combined_df (df_updated df now current_gbp) fca = Done combined
    /\ columns combined !! "y_combined"
       = Some ((y ++ [current_gbp]) ++ mul_scalar yhat usd).
Proof.
  intros Hwf Hwfc Hy Hyhat.
  pose proof (well_formed_length _ _ _ Hwf Hy) as Hly.
  pose proof (well_formed_length _ _ _ Hwfc Hyhat) as Hlyhat.
  set (dfu := df_updated df now current_gbp).
  set (fca := setitem fc "yhat_adjusted" (mul_scalar yhat usd)).
  assert (Hyu : columns dfu !! "y" = Some (y ++ [current_gbp])).
  { unfold dfu. rewrite lookup_df_updated_y, Hy. reflexivity. }
  destruct (combined_df_columns dfu fca _ _ Hyu
              (lookup_setitem_eq fc "yhat_adjusted" (mul_scalar yhat usd)))
    as (c & Hc & _ & _ & _ & Hcc).
  exists fca, c. split; [apply (forecast_adjusted_Done _ _ _ Hyhat)|].
  split; [exact Hc|]. rewrite Hcc. f_equal.
  assert (Hn : nrows dfu = length (y ++ [current_gbp])).
  { unfold dfu, nrows, df_updated, pd_concat, today; cbn [ds].
    rewrite !length_app. unfold nrows in Hly. rewrite Hly. reflexivity. }
  rewrite fillna_app by (rewrite length_nans; symmetry; exact Hn).
  rewrite fillna_nans_r, fillna_nans_l; [reflexivity|].
  unfold mul_scalar, fca, nrows, setitem; cbn [ds].
  rewrite length_map. exact Hlyhat.
Qed.

Lemma combined_column_is_history_then_forecast_witness :
  exists fca combined,
    forecast_adjusted canned_forecast 1.5 = Done fca
    /\ combined_df (df_updated history_2020 noon 1.4) fca = Done combined
    /\ columns combined !! "y_combined"
       = Some (([1.30; 1.35]%float ++ [1.4%float])
               ++ mul_scalar [1.0; 2.0; 3.0]%float 1.5).
Proof.
  apply (combined_column_is_history_then_forecast history_2020 noon 1.4
           canned_forecast 1.5 [1.30; 1.35]%float [1.0; 2.0; 3.0]%float).
  - compute_well_formed.
  - compute_well_formed.
  - vm_compute. reflexivity.
  - vm_compute. reflexivity.
Defined.

(** ** The two lines of the chart *)

Lemma dt_not_after_lt_trans (a m t : datetime) :
  dt_ltb m a = false -> dt_ltb m t = true -> dt_ltb a t = true.
Proof.
  unfold dt_ltb, dt_compare.
  rewrite (lex_compare_antisym (dt_fields a) (dt_fields m)).
  destruct (lex_compare (dt_fields a) (dt_fields m)) eqn:Ham;
    cbn [CompOpp]; try discriminate; intros _.
  - apply lex_compare_eq in Ham. rewrite Ham. tauto.
  - destruct (lex_compare (dt_fields m) (dt_fields t)) eqn:Hmt;
      try discriminate; intros _.
    rewrite (lex_compare_lt_trans _ _ _ Ham Hmt). reflexivity.
Qed.

(** X4.  The forecast line never overlaps the history line: each of its
    points is strictly after every timestamp of the merged history, the
    instant of the run included, so the line shows predictions for the
    future only, and its points are rows of the forecast with their adjusted
    predictions. *)
Theorem forecast_line_is_after_history
  (df : DataFrame) (now : datetime) (current_gbp : float)
  (fc : DataFrame) (usd : float) (yhat : list float) :
  columns fc !! "yhat" = Some yhat ->
  let dfu := df_updated df now current_gbp in
  exists fca line,
    forecast_adjusted fc usd = Done fca
    /\ forecast_trace fca dfu = Done line
    /\ forall t v, In (t, v) (points line) ->
         dt_ltb now t = true
         /\ (forall t', In t' (ds dfu) -> dt_ltb t' t = true)
         /\ In (t, v) (combine (ds fc) (mul_scalar yhat usd)).
Proof.
  intros Hyhat dfu.
  set (fca := setitem fc "yhat_adjusted" (mul_scalar yhat usd)).
  destruct (forecast_trace_points fca dfu _
              (lookup_setitem_eq fc "yhat_adjusted" (mul_scalar yhat usd)))
    as (line & Hline & Hpts).
  exists fca, line. split; [apply (forecast_adjusted_Done _ _ _ Hyhat)|].
  split; [exact Hline|].
  intros t v Hin. rewrite Hpts in Hin. apply filter_In in Hin.
  destruct Hin as [Hin Haft]. cbn [fst] in Haft.
  destruct (ds_max (ds dfu)) as [m|] eqn:Hm; [|discriminate].
  cbn [after] in Haft.
  destruct (ds_max_is_maximum _ _ Hm) as [_ Hub]. cbn [after] in Hub.
  assert (Hall : forall t', In t' (ds dfu) -> dt_ltb t' t = true).
  { intros t' Ht'. exact (dt_not_after_lt_trans t' m t (Hub t' Ht') Haft). }
  split; [|split; [exact Hall|exact Hin]].
  apply Hall. unfold dfu, df_updated, pd_concat, today; cbn [ds].
  apply in_or_app. right. left. reflexivity.
Qed.

Lemma forecast_line_is_after_history_witness :
  let dfu := df_updated history_2020 noon 1.4 in
  exists fca line,
    forecast_adjusted canned_forecast 1.5 = Done fca
    /\ forecast_trace fca dfu = Done line
    /\ forall t v, In (t, v) (points line) ->
         dt_ltb noon t = true
         /\ (forall t', In t' (ds dfu) -> dt_ltb t' t = true)
         /\ In (t, v) (combine (ds canned_forecast)
                         (mul_scalar [1.0; 2.0; 3.0]%float 1.5)).
Proof.
  apply (forecast_line_is_after_history history_2020 noon 1.4 canned_forecast
           1.5 [1.0; 2.0; 3.0]%float).
  vm_compute. reflexivity.
Defined.

(** ** The year slider *)

Lemma fold_min_spec (l : list Z) (y : Z) :
  In (fold_left Z.min l y) (y :: l)
  /\ forall x, In x (y :: l) -> fold_left Z.min l y <= x.
Proof.
  revert y. induction l as [|z l IH]; intros y; simpl.
  - split; [left; reflexivity|]. intros x [<-|[]]. lia.
  - destruct (IH (Z.min y z)) as [Hin Hle]. split.
    + destruct Hin as [Hin|Hin]; [|right; right; exact Hin].
      rewrite <- Hin. destruct (Z.min_spec y z) as [[_ ->]|[_ ->]]; tauto.
    + intros x [<-|[<-|Hx]].
      * specialize (Hle (Z.min y z) (or_introl eq_refl)). lia.
      * specialize (Hle (Z.min y z) (or_introl eq_refl)). lia.
      * apply Hle. right. exact Hx.
Qed.

Lemma fold_max_spec (l : list Z) (y : Z) :
  In (fold_left Z.max l y) (y :: l)
  /\ forall x, In x (y :: l) -> x <= fold_left Z.max l y.
Proof.
  revert y. induction l as [|z l IH]; intros y; simpl.
  - split; [left; reflexivity|]. intros x [<-|[]]. lia.
  - destruct (IH (Z.max y z)) as [Hin Hle]. split.
    + destruct Hin as [Hin|Hin]; [|right; right; exact Hin].
      rewrite <- Hin. destruct (Z.max_spec y z) as [[_ ->]|[_ ->]]; tauto.
    + intros x [<-|[<-|Hx]].
      * specialize (Hle (Z.max y z) (or_introl eq_refl)). lia.
      * specialize (Hle (Z.max y z) (or_introl eq_refl)). lia.
      * apply Hle. right. exact Hx.
Qed.

Lemma year_slider_spec (c : DataFrame) (clock : datetime) :
  ds c <> [] ->
  exists lo hi,
    min_year c = Some lo /\ max_year c = Some hi
    /\ (forall t, In t (ds c) -> lo <= year t <= hi)
    /\ (exists t, In t (ds c) /\ year t = lo)
    /\ (exists t, In t (ds c) /\ year t = hi)
    /\ year_slider c clock
       = if (lo <? hi) && (lo <=? year clock) && (year clock <=? hi)
         then Done (mkSlider lo hi (year clock))
         else Raised StreamlitAPIException.
Proof.
  intros Hne. unfold year_slider, min_year, max_year, int_min, int_max.
  destruct (ds c) as [|t0 l]; [contradiction Hne; reflexivity|].
  cbn [map].
  destruct (fold_min_spec (map year l) (year t0)) as [Hmin Hle].
  destruct (fold_max_spec (map year l) (year t0)) as [Hmax Hge].
  eexists. eexists. split; [reflexivity|]. split; [reflexivity|].
  split; [|split; [|split; [|reflexivity]]].
  - intros t Ht.
    assert (Hy : In (year t) (year t0 :: map year l)).
    { change (In (year t) (map year (t0 :: l))). apply in_map, Ht. }
    split; [apply Hle, Hy|apply Hge, Hy].
  - change (In (fold_left Z.min (map year l) (year t0)) (map year (t0 :: l)))
      in Hmin.
    apply in_map_iff in Hmin. destruct Hmin as (t & Hy & Ht). eauto.
  - change (In (fold_left Z.max (map year l) (year t0)) (map year (t0 :: l)))
      in Hmax.
    apply in_map_iff in Hmax. destruct Hmax as (t & Hy & Ht). eauto.
Qed.


(** X6.  With the clock of line 64 in the year of the anchor, the year
    slider of a run can be shown exactly when the blended frame spans more
    than one year.  When all the rows of the file and of the forecast are
    dated in the year of the anchor, the minimum and the maximum coincide
    and Streamlit refuses the slider.  Otherwise the slider opens on the
    year of the clock, within its bounds; every row's year is within them;
    and at the opening year and at both ends the summary is never the
    no-data notice. *)
Theorem year_slider_opens_in_range
  (df : DataFrame) (now : datetime) (current_gbp : float)
  (fc : DataFrame) (usd : float) (yhat : list float) (clock : datetime) :
  columns fc !! "yhat" = Some yhat ->
  year clock = year now ->
  exists fca combined,
    forecast_adjusted fc usd = Done fca
    /\ combined_df (df_updated df now current_gbp) fca = Done combined
    /\ ((forall t, In t (ds df) \/ In t (ds fc) -> year t = year now) ->
        year_slider combined clock = Raised StreamlitAPIException)
    /\ ((exists t, (In t (ds df) \/ In t (ds fc)) /\ year t <> year now) ->
        exists w,
          year_slider combined clock = Done w
          /\ initial w = year clock
          /\ lo w < hi w
          /\ slides w (initial w)
          /\ (forall t, In t (ds combined) -> slides w (year t))
          /\ (forall sel, sel = initial w \/ sel = lo w \/ sel = hi w ->
                forall clock',
                  year_summary combined sel clock' usd <> Done (NoData sel))).
Proof.
  intros Hyhat Hclock.
  destruct (blend_columns df now current_gbp fc usd yhat Hyhat)
    as (c & Hc & Hds & Hcy & Hca).
  assert (Hnow : In now (ds c)).
  { rewrite Hds. apply in_or_app. left. apply in_or_app. right.
    left. reflexivity. }
  assert (Hrows : forall t, In t (ds c) <->
                    t = now \/ In t (ds df) \/ In t (ds fc)).
  { intros t. rewrite Hds, !in_app_iff. simpl. intuition. }
  assert (Hne : ds c <> []) by (intros E; rewrite E in Hnow; exact Hnow).
  destruct (year_slider_spec c clock Hne)
    as (l & h & _ & _ & Hin & (tl & Htl & Hlo) & (th & Hth & Hhi) & Hw).
  pose proof (Hin now Hnow) as Hbnd.
  exists (setitem fc "yhat_adjusted" (mul_scalar yhat usd)), c.
  split; [apply (forecast_adjusted_Done _ _ _ Hyhat)|].
  split; [exact Hc|]. split.
  - intros Hall. rewrite Hw.
    assert (Hl : l = year now).
    { rewrite <- Hlo. apply Hrows in Htl.
      destruct Htl as [->|Htl]; [reflexivity|apply Hall, Htl]. }
    assert (Hh : h = year now).
    { rewrite <- Hhi. apply Hrows in Hth.
      destruct Hth as [->|Hth]; [reflexivity|apply Hall, Hth]. }
    rewrite (proj2 (Z.ltb_ge l h)) by lia. reflexivity.
  - intros (t & Ht & Hyt).
    assert (Htc : In t (ds c)) by (apply Hrows; right; exact Ht).
    pose proof (Hin t Htc) as Hbt.
    exists (mkSlider l h (year clock)). rewrite Hw, Hclock.
    rewrite (proj2 (Z.ltb_lt l h)) by lia.
    rewrite (proj2 (Z.leb_le l (year now))) by lia.
    rewrite (proj2 (Z.leb_le (year now) h)) by lia.
    cbn [andb lo hi initial]. unfold slides; cbn [lo hi].
    split; [reflexivity|]. split; [reflexivity|]. split; [lia|].
    split; [lia|]. split; [exact Hin|].
    intros sel Hsel clock'.
    assert (Hex : exists t, In t (ds c) /\ year t = sel).
    { destruct Hsel as [->|[->| ->]]; eauto. }
    unfold year_summary.
    rewrite (proj2 (selected_year_data_empty c sel) Hex). cbn [negb].
    assert (Hysel : exists col', getitem (selected_year_data c sel) "y"
                                 = Done col').
    { eexists. apply getitem_lookup.
      unfold selected_year_data. rewrite lookup_loc, Hcy. reflexivity. }
    assert (Hasel : exists col', getitem (selected_year_data c sel)
                                   "yhat_adjusted" = Done col').
    { eexists. apply getitem_lookup.
      unfold selected_year_data. rewrite lookup_loc, Hca. reflexivity. }
    destruct Hysel as (y' & ->). destruct Hasel as (a' & ->).
    destruct (sel <=? year clock'); cbn [bind]; discriminate.
Qed.

Lemma year_slider_opens_in_range_witness :
  exists fca combined,
    forecast_adjusted canned_forecast 1.5 = Done fca
    /\ combined_df (df_updated history_2020 noon 1.4) fca = Done combined
    /\ ((forall t, In t (ds history_2020) \/ In t (ds canned_forecast) ->
          year t = year noon) ->
        year_slider combined noon = Raised StreamlitAPIException)
    /\ ((exists t, (In t (ds history_2020) \/ In t (ds canned_forecast))
                   /\ year t <> year noon) ->
        exists w,
          year_slider combined noon = Done w
          /\ initial w = year noon
          /\ lo w < hi w
          /\ slides w (initial w)
          /\ (forall t, In t (ds combined) -> slides w (year t))
          /\ (forall sel, sel = initial w \/ sel = lo w \/ sel = hi w ->
                forall clock',
                  year_summary combined sel clock' 1.5 <> Done (NoData sel))).
Proof.
  apply (year_slider_opens_in_range history_2020 noon 1.4 canned_forecast 1.5
           [1.0; 2.0; 3.0]%float noon).
  - vm_compute. reflexivity.
  - reflexivity.
Defined.

(** A file and a forecast all dated in the year of the anchor: line 64
    stops the run. *)
Example one_year_run :
  dashboard
    (replay {| ds := [mkDatetime 2024 6 2 12 0 0 0];
               columns := {["yhat" := [2.0]%float]} |})
    history_2024 (run_2024 1.40)
  = Raised StreamlitAPIException.
Proof. vm_compute. reflexivity. Qed.

(** ** When a run completes *)




(** ** What enters the average of a year *)

Lemma blended_has_row (df : DataFrame) (now : datetime) (fc c : DataFrame)
  (sel : Z) :
  ds c = (ds df ++ [now]) ++ ds fc ->
  (exists t, (In t (ds df) \/ In t (ds fc)) /\ year t = sel) ->
  exists t, In t (ds c) /\ year t = sel.
Proof.
  intros Hds (t & [Ht|Ht] & Hy); exists t; (split; [|exact Hy]);
    rewrite Hds; apply in_or_app.
  - left. apply in_or_app. left. exact Ht.
  - right. exact Ht.
Qed.

(** X7.  For a year before the year of the clock, the observed values that
    pandas averages for the "actual" rate are the file's rates of that year
    followed by one null for each forecast row of the year: neither the
    anchor, nor the values the engine predicts for that year, nor the scale
    enters the rate; the scale enters the adjusted rate only. *)
Theorem past_year_average_is_the_files
  (df : DataFrame) (now : datetime) (current_gbp : float)
  (fc : DataFrame) (usd : float) (y yhat : list float) (sel : Z) :
  well_formed df ->
  columns df !! "y" = Some y ->
  columns fc !! "yhat" = Some yhat ->
  sel < year now ->
  (exists t, (In t (ds df) \/ In t (ds fc)) /\ year t = sel) ->
  exists fca combined,
    forecast_adjusted fc usd = Done fca
    /\ combined_df (df_updated df now current_gbp) fca = Done combined
    /\ (let r := mean (values_in_year sel (ds df) y
                      ++ nans (length (List.filter (fun t => year t =? sel)
                                         (ds fc)))) in
        year_summary combined sel now usd
        = Done (Historical sel r (r * usd)%float)).
Proof.
  intros Hwf Hy Hyhat Hlt Hrow.
  pose proof (well_formed_length _ _ _ Hwf Hy) as Hly. unfold nrows in Hly.
  destruct (blend_columns df now current_gbp fc usd yhat Hyhat)
    as (c & Hc & Hds & Hcy & _).
  rewrite Hy in Hcy. cbn [from_option id] in Hcy.
  exists (setitem fc "yhat_adjusted" (mul_scalar yhat usd)), c.
  split; [apply (forecast_adjusted_Done _ _ _ Hyhat)|].
  split; [exact Hc|].
  pose proof (blended_has_row df now fc c sel Hds Hrow) as Hex.
  rewrite (year_summary_historical c sel now usd _ Hcy Hex) by lia.
  cbv zeta. rewrite Hds.
  rewrite (observed_of_year df now current_gbp fc y sel Hly).
  rewrite (proj2 (Z.eqb_neq (year now) sel)) by lia.
  rewrite app_nil_r. reflexivity.
Qed.

Lemma past_year_average_is_the_files_witness :
  exists fca combined,
    forecast_adjusted canned_forecast 1.5 = Done fca
    /\ combined_df (df_updated history_2020 noon 1.4) fca = Done combined
    /\ (let r := mean (values_in_year 2020 (ds history_2020) [1.30; 1.35]%float
                      ++ nans (length (List.filter (fun t => year t =? 2020)
                                         (ds canned_forecast)))) in
        year_summary combined 2020 noon 1.5
        = Done (Historical 2020 r (r * 1.5)%float)).
Proof.
  apply (past_year_average_is_the_files history_2020 noon 1.4 canned_forecast
           1.5 [1.30; 1.35]%float [1.0; 2.0; 3.0]%float 2020).
  - compute_well_formed.
  - vm_compute. reflexivity.
  - vm_compute. reflexivity.
  - simpl. lia.
  - exists (date 2020 1 1). split; [left; left; reflexivity|reflexivity].
Defined.

(** X8.  For a year after the year of the clock, the adjusted predictions
    that pandas averages for the forecasted rate are one null for each row
    of the file dated in that year followed by the adjusted predictions of
    the forecast rows of the year: no observed value and no prediction of
    another year enters the rate. *)
Theorem future_year_rate_is_the_forecasts
  (df : DataFrame) (now : datetime) (current_gbp : float)
  (fc : DataFrame) (usd : float) (yhat : list float) (sel : Z) :
  well_formed fc ->
  columns fc !! "yhat" = Some yhat ->
  year now < sel ->
  (exists t, (In t (ds df) \/ In t (ds fc)) /\ year t = sel) ->
  exists fca combined,
    forecast_adjusted fc usd = Done fca
    /\ combined_df (df_updated df now current_gbp) fca = Done combined
    /\ year_summary combined sel now usd
       = Done (Forecasted sel
                 (mean (nans (length (List.filter (fun t => year t =? sel)
                                        (ds df)))
                        ++ values_in_year sel (ds fc) (mul_scalar yhat usd)))).
Proof.
  intros Hwfc Hyhat Hlt Hrow.
  pose proof (well_formed_length _ _ _ Hwfc Hyhat) as Hl. unfold nrows in Hl.
  destruct (blend_columns df now current_gbp fc usd yhat Hyhat)
    as (c & Hc & Hds & _ & Hca).
  exists (setitem fc "yhat_adjusted" (mul_scalar yhat usd)), c.
  split; [apply (forecast_adjusted_Done _ _ _ Hyhat)|].
  split; [exact Hc|].
  pose proof (blended_has_row df now fc c sel Hds Hrow) as Hex.
  rewrite (year_summary_forecasted c sel now usd _ Hca Hex Hlt).
  rewrite Hds, map_app.
  rewrite mask_select_app
    by (rewrite length_map, length_app, length_nans; reflexivity).
  replace (nrows df + 1)%nat with (length (ds df ++ [now]))
    by (rewrite length_app; reflexivity).
  rewrite mask_select_nans.
  rewrite List.filter_app. simpl.
  rewrite (proj2 (Z.eqb_neq (year now) sel)) by lia. rewrite app_nil_r.
  rewrite (mask_select_year sel (ds fc) (mul_scalar yhat usd))
    by (unfold mul_scalar; rewrite length_map; exact Hl).
  reflexivity.
Qed.

Lemma future_year_rate_is_the_forecasts_witness :
  exists fca combined,
    forecast_adjusted canned_forecast 1.5 = Done fca
    /\ combined_df (df_updated history_2020 noon 1.4) fca = Done combined
    /\ year_summary combined 2025 noon 1.5
       = Done (Forecasted 2025
                 (mean (nans (length (List.filter (fun t => year t =? 2025)
                                        (ds history_2020)))
                        ++ values_in_year 2025 (ds canned_forecast)
                             (mul_scalar [1.0; 2.0; 3.0]%float 1.5)))).
Proof.
  apply (future_year_rate_is_the_forecasts history_2020 noon 1.4
           canned_forecast 1.5 [1.0; 2.0; 3.0]%float 2025).
  - compute_well_formed.
  - vm_compute. reflexivity.
  - simpl. lia.
  - exists (mkDatetime 2025 6 2 12 0 0 0).
    split; [right; right; right; left; reflexivity|reflexivity].
Defined.

Lemma nan_mul (s : float) : (nan * s)%float = nan.
Proof.
  apply Prim2SF_inj. rewrite mul_spec.
  change (Prim2SF nan) with S754_nan. reflexivity.
Qed.

Lemma mean_all_null (l : list float) :
  Forall (fun v => notnull v = false) l -> mean l = nan.
Proof.
  intros H. unfold mean.
  replace (List.filter notnull l) with (@nil float); [reflexivity|].
  induction H as [|x l Hx _ IH]; simpl; [reflexivity|].
  rewrite Hx. exact IH.
Qed.

(** X9.  The no-data notice is for a year without rows only.  When rows
    match a year that is not after the year of the clock but none of them
    has an observed value (forecast rows only, or rates missing in the
    file), the summary is numeric and both rates it reports are NaN. *)
Theorem year_without_observed_value_reports_nan
  (combined : DataFrame) (sel : Z) (clock : datetime) (usd : float)
  (y : list float) :
  columns combined !! "y" = Some y ->
  (exists t, In t (ds combined) /\ year t = sel) ->
  sel <= year clock ->
  Forall (fun v => notnull v = false)
    (mask_select (map (fun t => year t =? sel) (ds combined)) y) ->
  year_summary combined sel clock usd = Done (Historical sel nan nan).
Proof.
  intros Hy Hex Hle Hnull.
  rewrite (year_summary_historical combined sel clock usd y Hy Hex Hle).
  cbv zeta. rewrite (mean_all_null _ Hnull), nan_mul. reflexivity.
Qed.

Lemma year_without_observed_value_reports_nan_witness :
  year_summary
    {| ds := [date 2023 3 1; date 2024 1 2];
       columns := {["y" := [nan; 1.30]%float]} |} 2023 noon 1.5
  = Done (Historical 2023 nan nan).
Proof.
  apply (year_without_observed_value_reports_nan _ 2023 noon 1.5
           [nan; 1.30]%float).
  - vm_compute. reflexivity.
  - exists (date 2023 3 1). split; [left; reflexivity|reflexivity].
  - simpl. lia.
  - simpl. repeat constructor.
Defined.

(** ** The band of the selected year *)

(** X10.  The highlighted band starts at the first instant of the selected
    year, so no timestamp of that year is before it, and it ends at midnight
    of 31 December: the rows of the year dated at midnight, as the rows of
    the file are, lie within the band, but an instant later on 31 December,
    though in the selected year, is past its end. *)
Theorem selected_year_band_stops_at_last_midnight (sel : Z) (t : datetime) :
  valid_datetime t ->
  year t = sel ->
  let (x0, x1) := selected_year_band sel in
  dt_ltb x0 x1 = true
  /\ dt_ltb t x0 = false
  /\ (midnight t -> dt_ltb x1 t = false)
  /\ (month t = 12 -> day t = 31 -> ~ midnight t -> dt_ltb x1 t = true).
Proof.
  destruct t as [y mo d h mi s us].
  unfold valid_datetime, midnight, selected_year_band, date;
    cbn [year month day hour minute second microsecond].
  intros (Hmo & Hd & Hh & Hmi & Hs & Hus) <-.
  unfold dt_ltb, dt_compare, dt_fields, lex_compare;
    cbn [year month day hour minute second microsecond].
  rewrite !Z.compare_refl.
  split; [reflexivity|]. split; [|split].
  - destruct (Z.compare_spec mo 1); try lia; try reflexivity.
    destruct (Z.compare_spec d 1); try lia; try reflexivity.
    destruct (Z.compare_spec h 0); try lia; try reflexivity.
    destruct (Z.compare_spec mi 0); try lia; try reflexivity.
    destruct (Z.compare_spec s 0); try lia; try reflexivity.
    destruct (Z.compare_spec us 0); try lia; reflexivity.
  - intros (-> & -> & -> & ->).
    destruct (Z.compare_spec 12 mo); try lia; try reflexivity.
    destruct (Z.compare_spec 31 d); try lia; reflexivity.
  - intros -> -> Hnm. rewrite !Z.compare_refl.
    destruct (Z.compare_spec 0 h); try lia; try reflexivity.
    destruct (Z.compare_spec 0 mi); try lia; try reflexivity.
    destruct (Z.compare_spec 0 s); try lia; try reflexivity.
    destruct (Z.compare_spec 0 us); try lia; try reflexivity.
    all: exfalso; apply Hnm; repeat split; lia.
Qed.

Lemma selected_year_band_stops_at_last_midnight_witness :
  let (x0, x1) := selected_year_band 2024 in
  dt_ltb x0 x1 = true
  /\ dt_ltb (mkDatetime 2024 12 31 15 30 0 0) x0 = false
  /\ (midnight (mkDatetime 2024 12 31 15 30 0 0) ->
      dt_ltb x1 (mkDatetime 2024 12 31 15 30 0 0) = false)
  /\ (month (mkDatetime 2024 12 31 15 30 0 0) = 12 ->
      day (mkDatetime 2024 12 31 15 30 0 0) = 31 ->
      ~ midnight (mkDatetime 2024 12 31 15 30 0 0) ->
      dt_ltb x1 (mkDatetime 2024 12 31 15 30 0 0) = true).
Proof.
  apply (selected_year_band_stops_at_last_midnight 2024
           (mkDatetime 2024 12 31 15 30 0 0)).
  - unfold valid_datetime; simpl. lia.
  - reflexivity.
Defined.

(** ** When the blend has future predictions only *)

(** X11.  The blended frame has adjusted predictions of the future only
    exactly as far as the engine returns such rows only: when every
    timestamp of the forecast is strictly after the last timestamp of the
    merged history, every row of the blended frame with an adjusted
    prediction is after it too. *)
Theorem future_only_forecast_blends_future_only
  (df : DataFrame) (now : datetime) (current_gbp : float)
  (fc : DataFrame) (usd : float) (yhat : list float) :
  columns fc !! "yhat" = Some yhat ->
  let dfu := df_updated df now current_gbp in
  (forall t, In t (ds fc) -> after (ds_max (ds dfu)) t = true) ->
  exists fca combined,
    forecast_adjusted fc usd = Done fca
    /\ combined_df dfu fca = Done combined
    /\ blends_future_only dfu combined.
Proof.
  intros Hyhat dfu Hfut.
  destruct (blend_columns df now current_gbp fc usd yhat Hyhat)
    as (c & Hc & Hds & _ & Hca).
  exists (setitem fc "yhat_adjusted" (mul_scalar yhat usd)), c.
  split; [apply (forecast_adjusted_Done _ _ _ Hyhat)|].
  split; [exact Hc|].
  intros i t adj a Ht Hadj Ha Hnn.
  rewrite Hca in Hadj. injection Hadj as <-.
  assert (Hlen : length (ds df ++ [now]) = (nrows df + 1)%nat).
  { rewrite length_app. reflexivity. }
  destruct (Nat.lt_ge_cases i (nrows df + 1)) as [Hlt|Hge].
  - rewrite lookup_app_l in Ha by (rewrite length_nans; exact Hlt).
    unfold nans in Ha. apply lookup_replicate_1 in Ha.
    destruct Ha as [-> _]. discriminate Hnn.
  - rewrite Hds, lookup_app_r in Ht by lia.
    apply Hfut. apply list_elem_of_In. eapply list_elem_of_lookup_2. exact Ht.
Qed.

Lemma future_only_forecast_blends_future_only_witness :
  let fc := {| ds := [mkDatetime 2024 6 2 12 0 0 0];
               columns := {["yhat" := [2.0]%float]} |} in
  exists fca combined,
    forecast_adjusted fc 1.5 = Done fca
    /\ combined_df (df_updated history_2020 noon 1.4) fca = Done combined
    /\ blends_future_only (df_updated history_2020 noon 1.4) combined.
Proof.
  apply (future_only_forecast_blends_future_only history_2020 noon 1.4
           {| ds := [mkDatetime 2024 6 2 12 0 0 0];
              columns := {["yhat" := [2.0]%float]} |} 1.5 [2.0]%float).
  - vm_compute. reflexivity.
  - intros t [<-|[]]. vm_compute. reflexivity.
Defined.

(** ** Which summary is written *)

(** X12.  On a frame with the two columns of the blend, the kind of the
    summary is decided by the rows of the selected year and by the clock
    alone: the no-data notice exactly when no row falls in the year, the
    historical rates exactly when some row does and the year is not after
    the year of the clock, the forecasted rate exactly when some row does
    and the year is after it.  The summary never raises. *)
Theorem summary_kind
  (combined : DataFrame) (sel : Z) (clock : datetime) (usd : float)
  (y a : list float) :
  columns combined !! "y" = Some y ->
  columns combined !! "yhat_adjusted" = Some a ->
  let has_row := exists t, In t (ds combined) /\ year t = sel in
  (year_summary combined sel clock usd = Done (NoData sel) <-> ~ has_row)
  /\ ((exists r r', year_summary combined sel clock usd
                    = Done (Historical sel r r'))
      <-> has_row /\ sel <= year clock)
  /\ ((exists r, year_summary combined sel clock usd = Done (Forecasted sel r))
      <-> has_row /\ year clock < sel)
  /\ (forall e, year_summary combined sel clock usd <> Raised e).
Proof.
  intros Hy Ha has_row.
  destruct (empty_frame (selected_year_data combined sel)) eqn:He.
  - assert (Hno : ~ has_row).
    { intros Hex. apply selected_year_data_empty in Hex. congruence. }
    assert (Hr : year_summary combined sel clock usd = Done (NoData sel)).
    { unfold year_summary. rewrite He. reflexivity. }
    rewrite Hr. split; [tauto|]. split; [|split].
    + split; [intros (r & r' & H); discriminate|tauto].
    + split; [intros (r & H); discriminate|tauto].
    + intros e. discriminate.
  - assert (Hex : has_row) by (apply selected_year_data_empty, He).
    destruct (Z.leb_spec sel (year clock)) as [Hle|Hgt].
    + rewrite (year_summary_historical combined sel clock usd y Hy Hex Hle).
      cbv zeta. split; [split; [discriminate|tauto]|]. split; [|split].
      * split; [tauto|]. intros _. eauto.
      * split; [intros (r & H); discriminate|]. intros [_ H]. lia.
      * intros e. discriminate.
    + rewrite (year_summary_forecasted combined sel clock usd a Ha Hex Hgt).
      split; [split; [discriminate|tauto]|]. split; [|split].
      * split; [intros (r & r' & H); discriminate|]. intros [_ H]. lia.
      * split; [tauto|]. intros _. eauto.
      * intros e. discriminate.
Qed.

Lemma summary_kind_witness :
  let combined :=
    {| ds := [date 2024 1 2; mkDatetime 2025 6 2 12 0 0 0];
       columns := <["y" := [1.30; nan]%float]>
                  {["yhat_adjusted" := [nan; 4.5]%float]} |} in
  let has_row := exists t, In t (ds combined) /\ year t = 2025 in
  (year_summary combined 2025 noon 1.5 = Done (NoData 2025) <-> ~ has_row)
  /\ ((exists r r', year_summary combined 2025 noon 1.5
                    = Done (Historical 2025 r r'))
      <-> has_row /\ 2025 <= year noon)
  /\ ((exists r, year_summary combined 2025 noon 1.5 = Done (Forecasted 2025 r))
      <-> has_row /\ year noon < 2025)
  /\ (forall e, year_summary combined 2025 noon 1.5 <> Raised e).
Proof.
  apply (summary_kind
           {| ds := [date 2024 1 2; mkDatetime 2025 6 2 12 0 0 0];
              columns := <["y" := [1.30; nan]%float]>
                         {["yhat_adjusted" := [nan; 4.5]%float]} |}
           2025 noon 1.5 [1.30; nan]%float [nan; 4.5]%float).
  - vm_compute. reflexivity.
  - vm_compute. reflexivity.
Defined.
